(** * mvpp: conditional generative models trained with the energy score

    A shallow embedding of [cgm_models.py]: the energy score loss, the
    construction of the [cgm] wrapper, the forward pass of the wind-speed
    ("ws") network and the multi-pass [predict].

    Arithmetic is exact: a float32 tensor is a tensor of real numbers, so
    rounding, overflow and NaN are outside this model.  Random draws are
    explicit inputs. *)

From Stdlib Require Import ZArith QArith Qround String.
From Stdlib Require Import Reals Lra Lia PeanoNat Bool List Permutation.
Import ListNotations.

Local Open Scope R_scope.

(** ** Finite sums *)

(** [rsum n f] is [f 0 + ... + f (n-1)]. *)
Fixpoint rsum (n : nat) (f : nat -> R) : R :=
  match n with
  | O => 0
  | S k => rsum k f + f k
  end.

(** ** Tensors

    A dense tensor is its shape together with its entries, addressed by a
    multi-index that has one position per axis. *)

Record Tensor : Type := mkTensor {
  shape : list nat;
  at_ : list nat -> R
}.

Definition insert_at {A : Type} (k : nat) (x : A) (l : list A) : list A :=
  firstn k l ++ x :: skipn k l.

Definition remove_at {A : Type} (k : nat) (l : list A) : list A :=
  firstn k l ++ skipn (S k) l.

Definition replace_at {A : Type} (k : nat) (x : A) (l : list A) : list A :=
  firstn k l ++ x :: skipn (S k) l.

Fixpoint zip_with {A B C : Type} (f : A -> B -> C) (l : list A) (m : list B)
  : list C :=
  match l, m with
  | a :: l', b :: m' => f a b :: zip_with f l' m'
  | _, _ => []
  end.

(** Position of [p] in [perm] (the length of [perm] when absent). *)
Fixpoint index_of (p : nat) (perm : list nat) : nat :=
  match perm with
  | [] => O
  | q :: rest => if Nat.eqb q p then O else S (index_of p rest)
  end.

(** *** Broadcasting

    Shapes are aligned on their last axis; an axis of extent 1 is stretched
    to the extent of the other operand. *)

Fixpoint broadcast_rev (s1 s2 : list nat) : list nat :=
  match s1, s2 with
  | [], s => s
  | s, [] => s
  | a :: s1', b :: s2' => (if Nat.eqb a 1 then b else a) :: broadcast_rev s1' s2'
  end.

Definition broadcast_shape (s1 s2 : list nat) : list nat :=
  rev (broadcast_rev (rev s1) (rev s2)).

(** The index at which an operand of shape [s] is read for the result index
    [ix]: the trailing [length s] positions, with 0 along stretched axes. *)
Definition bindex (s ix : list nat) : list nat :=
  zip_with (fun d i => if Nat.eqb d 1 then O else i) s
           (skipn (length ix - length s) ix).

Module tf.

(** Elementwise unary operation. *)
Definition map1 (f : R -> R) (t : Tensor) : Tensor :=
  {| shape := shape t; at_ := fun ix => f (at_ t ix) |}.

(** Elementwise binary operation with broadcasting. *)
Definition map2 (f : R -> R -> R) (a b : Tensor) : Tensor :=
  {| shape := broadcast_shape (shape a) (shape b);
     at_ := fun ix => f (at_ a (bindex (shape a) ix))
                        (at_ b (bindex (shape b) ix)) |}.

Definition add : Tensor -> Tensor -> Tensor := map2 Rplus.
Definition subtract : Tensor -> Tensor -> Tensor := map2 Rminus.

(** [c * t] and [t / c] for a Python or rank-0 scalar [c]. *)
Definition scalar_mul (c : R) (t : Tensor) : Tensor := map1 (Rmult c) t.
Definition scalar_div (t : Tensor) (c : R) : Tensor :=
  map1 (fun x => x / c) t.

Definition square : Tensor -> Tensor := map1 (fun x => x * x).
Definition sqrt : Tensor -> Tensor := map1 R_sqrt.sqrt.

(** [tf.clip_by_value]: [maximum (minimum t clip_value_max) clip_value_min]. *)
Definition clip (clip_value_min clip_value_max x : R) : R :=
  Rmax (Rmin x clip_value_max) clip_value_min.

Definition clip_by_value (t : Tensor) (clip_value_min clip_value_max : R)
  : Tensor :=
  map1 (clip clip_value_min clip_value_max) t.

(** Sum along one axis. *)
Definition reduce_sum_axis (t : Tensor) (axis : nat) (keepdims : bool)
  : Tensor :=
  {| shape := if keepdims then replace_at axis 1%nat (shape t)
              else remove_at axis (shape t);
     at_ := fun ix =>
       rsum (nth axis (shape t) O)
            (fun k => at_ t (if keepdims then replace_at axis k ix
                             else insert_at axis k ix)) |}.

(** [tf.reduce_sum t axis=axes] for an increasing list of axes: the last
    axis is summed first, so the earlier axis numbers stay valid. *)
Definition reduce_sum (t : Tensor) (axes : list nat) : Tensor :=
  fold_right (fun axis acc => reduce_sum_axis acc axis false) t axes.

Module linalg.

(** Euclidean norm along [axis]. *)
Definition norm (t : Tensor) (axis : nat) (keepdims : bool) : Tensor :=
  sqrt (reduce_sum_axis (square t) axis keepdims).

(** Exchange of the last two axes. *)
Definition swap_last2 {A : Type} (l : list A) : list A :=
  match rev l with
  | j :: i :: front => rev front ++ [j; i]
  | _ => l
  end.

Definition adjoint (t : Tensor) : Tensor :=
  {| shape := swap_last2 (shape t);
     at_ := fun ix => at_ t (swap_last2 ix) |}.

(** Batched matrix product over the last two axes. *)
Definition matmul (a b : Tensor) (transpose_a transpose_b : bool)
  : Tensor :=
  let a' := if transpose_a then adjoint a else a in
  let b' := if transpose_b then adjoint b else b in
  let r := length (shape a') in
  {| shape := firstn (r - 2) (shape a')
                ++ [nth (r - 2) (shape a') O; nth (r - 1) (shape b') O];
     at_ := fun ix =>
       let batch := firstn (r - 2) ix in
       let i := nth (r - 2) ix O in
       let j := nth (r - 1) ix O in
       rsum (nth (r - 1) (shape a') O)
            (fun k => at_ a' (batch ++ [i; k]) * at_ b' (batch ++ [k; j])) |}.

(** Main diagonal ([k=0]) of the innermost matrices. *)
Definition diag_part (t : Tensor) : Tensor :=
  let r := length (shape t) in
  {| shape := firstn (r - 2) (shape t)
                ++ [Nat.min (nth (r - 2) (shape t) O)
                            (nth (r - 1) (shape t) O)];
     at_ := fun ix =>
       let batch := firstn (r - 2) ix in
       let i := nth (r - 2) ix O in
       at_ t (batch ++ [i; i]) |}.

End linalg.

Definition matmul := linalg.matmul.

Definition expand_dims (t : Tensor) (axis : nat) : Tensor :=
  {| shape := insert_at axis 1%nat (shape t);
     at_ := fun ix => at_ t (remove_at axis ix) |}.

(** [tf.transpose t perm]: axis [i] of the result is axis [perm[i]] of
    [t]. *)
Definition transpose (t : Tensor) (perm : list nat) : Tensor :=
  {| shape := List.map (fun p => nth p (shape t) O) perm;
     at_ := fun ix =>
       at_ t (List.map (fun p => nth (index_of p perm) ix O)
                       (seq 0 (length perm))) |}.

(** [tf.cast (tf.shape t)[axis] tf.float32]. *)
Definition shape_float (t : Tensor) (axis : nat) : R :=
  INR (nth axis (shape t) O).


End tf.

(** Keras backend. *)
Module K.

(** The fuzz factor; the backend default, which this code never changes. *)
Definition epsilon : R := 1e-7.

End K.

(** ** The energy score *)

Definition energy_score (y_true y_pred : Tensor) : Tensor :=
  let n_samples_model := tf.shape_float y_pred 2 in
  let es_12 :=
    tf.reduce_sum
      (tf.sqrt
         (tf.clip_by_value
            (tf.subtract
               (tf.add (tf.matmul y_true y_true true false)
                       (tf.square (tf.linalg.norm y_pred 1 true)))
               (tf.scalar_mul 2 (tf.matmul y_true y_pred true false)))
            K.epsilon 1e10))
      [1; 2]%nat in
  let G := tf.linalg.matmul y_pred y_pred true false in
  let d := tf.expand_dims (tf.linalg.diag_part G) 1 in
  let es_22 :=
    tf.reduce_sum
      (tf.sqrt
         (tf.clip_by_value
            (tf.subtract (tf.add d (tf.transpose d [0; 2; 1]%nat))
                         (tf.scalar_mul 2 G))
            K.epsilon 1e10))
      [1; 2]%nat in
  let loss :=
    tf.subtract (tf.scalar_div es_12 n_samples_model)
                (tf.scalar_div es_22
                               (2 * n_samples_model * (n_samples_model - 1))) in
  loss.

(** *** Reading the score entry by entry *)

(** The observation and the [i]-th sample of example [b], as vectors
    indexed by the output dimension. *)
Definition truth (y_true : Tensor) (b : nat) : nat -> R :=
  fun k => at_ y_true [b; k; O].

Definition sample (y_pred : Tensor) (b i : nat) : nat -> R :=
  fun k => at_ y_pred [b; k; i].

Definition sqdist (D : nat) (u v : nat -> R) : R :=
  rsum D (fun k => (u k - v k) * (u k - v k)).

(** Euclidean distance with the radicand clipped to [lo, hi]. *)
Definition cdist (lo hi : R) (D : nat) (u v : nat -> R) : R :=
  sqrt (tf.clip lo hi (sqdist D u v)).

(** The estimator of the specification for a distance [dist]:
    [(1/N) sum_i dist(t, y_i) - 1/(2N(N-1)) sum_i sum_j dist(y_i, y_j)]. *)
Definition es_formula (dist : (nat -> R) -> (nat -> R) -> R) (N : nat)
           (t : nat -> R) (y : nat -> nat -> R) : R :=
  1 / INR N * rsum N (fun i => dist t (y i))
  - 1 / (2 * INR N * (INR N - 1))
    * rsum N (fun i => rsum N (fun j => dist (y i) (y j))).


(** The radicands as the code computes them, from Gram products. *)
Definition radicand_12 (D : nat) (t y : nat -> R) : R :=
  rsum D (fun k => t k * t k)
  + sqrt (rsum D (fun k => y k * y k)) * sqrt (rsum D (fun k => y k * y k))
  - 2 * rsum D (fun k => t k * y k).

Definition radicand_22 (D : nat) (yi yj : nat -> R) : R :=
  rsum D (fun k => yj k * yj k) + rsum D (fun k => yi k * yi k)
  - 2 * rsum D (fun k => yi k * yj k).



(** ** Concrete tensors *)

(** [tf.constant] of a rank-3 nested list. *)
Definition constant3 (l : list (list (list R))) : Tensor :=
  {| shape := [length l; length (hd [] l); length (hd [] (hd [] l))];
     at_ := fun ix =>
       nth (nth 2 ix O) (nth (nth 1 ix O) (nth (nth 0 ix O) l []) []) 0 |}.

(** [tf.zeros shape]. *)
Definition zeros (s : list nat) : Tensor :=
  {| shape := s; at_ := fun _ => 0 |}.

(** Two samples [a], [b] around the observation [t], one output dimension. *)
Definition obs1 (t : R) : Tensor := constant3 [[[t]]].
Definition pair1 (a b : R) : Tensor := constant3 [[[a; b]]].

(** ** Keras layers and activations *)

Module activations.

Definition linear (x : R) : R := x.

(** [elu] with [alpha = 1]. *)
Definition elu (x : R) : R := if Rlt_dec 0 x then x else exp x - 1.

Definition exponential (x : R) : R := exp x.

Definition softplus (x : R) : R := ln (1 + exp x).

End activations.

Definition prod (s : list nat) : nat := fold_right Nat.mul 1%nat s.

(** Row-major position of the multi-index [ix] in an array of shape [s]. *)
Definition ravel (s ix : list nat) : nat :=
  fold_left (fun acc di => (acc * fst di + snd di)%nat) (combine s ix) O.

(** The multi-index at row-major position [n] in an array of shape [s]. *)
Fixpoint unravel (s : list nat) (n : nat) : list nat :=
  match s with
  | [] => []
  | _ :: s' => (n / prod s')%nat :: unravel s' (n mod prod s')%nat
  end.

(** The parameters of a layer: kernel and bias. *)
Definition layer_weights : Type := (Tensor * Tensor)%type.

Module layers.

(** [Dense units activation] on the last axis, with bias. *)
Definition Dense (units : nat) (activation : R -> R) (w : layer_weights)
           (x : Tensor) : Tensor :=
  let kernel := fst w in
  let bias := snd w in
  {| shape := removelast (shape x) ++ [units];
     at_ := fun ix =>
       let front := removelast ix in
       let u := last ix O in
       activation
         (rsum (last (shape x) O)
               (fun i => at_ x (front ++ [i]) * at_ kernel [i; u])
          + at_ bias [u]) |}.

(** [LocallyConnected1D filters kernel_size=1 strides=1] with a linear
    activation and bias: an own linear map at every position of axis 1. *)
Definition LocallyConnected1D (filters : nat) (w : layer_weights)
           (x : Tensor) : Tensor :=
  let kernel := fst w in
  let bias := snd w in
  {| shape := [nth 0 (shape x) O; nth 1 (shape x) O; filters];
     at_ := fun ix =>
       let b := nth 0 ix O in
       let p := nth 1 ix O in
       let f := nth 2 ix O in
       activations.linear
         (rsum (nth 2 (shape x) O)
               (fun i => at_ x [b; p; i] * at_ kernel [p; i; f])
          + at_ bias [p; f]) |}.

(** [Reshape target_shape]: the batch axis is kept, the rest is read in
    row-major order. *)
Definition Reshape (target_shape : list nat) (x : Tensor) : Tensor :=
  {| shape := hd O (shape x) :: target_shape;
     at_ := fun ix =>
       at_ x (hd O ix :: unravel (tl (shape x)) (ravel target_shape (tl ix))) |}.

Definition Flatten (x : Tensor) : Tensor :=
  Reshape [prod (tl (shape x))] x.

(** [Concatenate axis] of two tensors. *)
Definition Concatenate (axis : nat) (a b : Tensor) : Tensor :=
  let da := nth axis (shape a) O in
  {| shape := replace_at axis (da + nth axis (shape b) O)%nat (shape a);
     at_ := fun ix =>
       let k := nth axis ix O in
       if Nat.ltb k da then at_ a ix
       else at_ b (replace_at axis (k - da)%nat ix) |}.

(** [Permute dims] on the non-batch axes, numbered from 1. *)
Definition Permute (dims : list nat) (x : Tensor) : Tensor :=
  tf.transpose x (O :: dims).

Definition Multiply (a b : Tensor) : Tensor := tf.map2 Rmult a b.

Definition Add (a b : Tensor) : Tensor := tf.add a b.

End layers.

(** [K.repeat_elements x rep axis=-1]. *)
Definition repeat_elements (x : Tensor) (rep : nat) : Tensor :=
  {| shape := removelast (shape x) ++ [(last (shape x) O * rep)%nat];
     at_ := fun ix => at_ x (removelast ix ++ [(last ix O / rep)%nat]) |}.

(** ** Python results *)

Inductive exception : Type :=
| AttributeError (name : string)
| UnboundLocalError (name : string)
| ValueError (message : string)
| ZeroDivisionError.

Inductive result (A : Type) : Type :=
| Ok (a : A)
| Raise (e : exception).

Arguments Ok {A} a.
Arguments Raise {A} e.

Definition bind {A B : Type} (r : result A) (k : A -> result B) : result B :=
  match r with
  | Ok a => k a
  | Raise e => Raise e
  end.

Notation "x <- r ;; k" := (bind r (fun x => k))
  (at level 61, r at next level, right associativity).

(** ** The model wrapper *)

(** The latent draw a model makes on every forward pass. *)
Inductive latent_draw : Type :=
| random_uniform (minval maxval : R)
| random_normal (mean stddev : R).

(** A built Keras model: the draw it makes, the extent of the drawn tensor
    past the batch axis, and its forward pass as a function of the layer
    parameters (in the order the layers are created), the three inputs and
    the drawn tensor. *)
Record Model : Type := mkModel {
  latent : latent_draw;
  latent_shape : list nat;
  call : list layer_weights -> Tensor -> Tensor -> Tensor -> Tensor -> Tensor
}.

Inductive builder : Type := build_t2m | build_ws.

Module cgm.

(** The attributes [__init__] sets before the model is built; an attribute
    that was never assigned is [None]. *)
Record attrs : Type := mkAttrs {
  dim_out : nat;
  dim_in_mean : nat;
  dim_in_std : nat;
  dim_in_features : nat;
  dim_latent : nat;
  n_samples_train : nat;
  latent_dist : string;
  latent_dist_params : option (R * R);
  _n_samples : nat;
  _build_model : option builder
}.

(** The constructed object. *)
Record obj : Type := mkObj {
  self : attrs;
  model : Model
}.

Definition zero_weights : layer_weights :=
  (mkTensor [] (fun _ => 0), mkTensor [] (fun _ => 0)).

Definition layer (weights : list layer_weights) (i : nat) : layer_weights :=
  nth i weights zero_weights.

(** The draw named by [latent_dist]; [epsilon] stays unassigned for any
    other name, and is then read by the [Multiply] layer. *)
Definition latent_epsilon (self : attrs) : result latent_draw :=
  if String.eqb (latent_dist self) "uniform" then
    match latent_dist_params self with
    | Some (lo, hi) => Ok (random_uniform lo hi)
    | None => Raise (AttributeError "latent_dist_params")
    end
  else if String.eqb (latent_dist self) "normal" then
    match latent_dist_params self with
    | Some (mu, sd) => Ok (random_normal mu sd)
    | None => Raise (AttributeError "latent_dist_params")
    end
  else Raise (UnboundLocalError "epsilon").

(** The joint mixing branch, shared by both variants. *)
Definition mixing (self : attrs) (w1 w2 w3 : layer_weights)
           (input_all z : Tensor) : Tensor :=
  let input_all_ :=
    layers.Reshape [(dim_out self * dim_in_features self)%nat; 1%nat]
                   input_all in
  let input_all_ := repeat_elements input_all_ (_n_samples self) in
  let W := layers.Concatenate 1 input_all_ z in
  let W := layers.Permute [2; 1]%nat W in
  let W := layers.Dense 25 activations.elu w1 W in
  let W := layers.Dense 25 activations.elu w2 W in
  let y_noise := layers.Dense (dim_out self) activations.linear w3 W in
  layers.Permute [2; 1]%nat y_noise.

Definition forward_t2m (self : attrs) (weights : list layer_weights)
           (input_mean input_sd input_all epsilon : Tensor) : Tensor :=
  let y_mean := layers.LocallyConnected1D 1 (layer weights 0) input_mean in
  let y_mean_ := repeat_elements y_mean (_n_samples self) in
  let log_sd_z := layers.LocallyConnected1D 1 (layer weights 1) input_sd in
  let log_sd_z := layers.Flatten log_sd_z in
  let sd_z := layers.Dense (dim_latent self) activations.exponential
                           (layer weights 2) log_sd_z in
  let sd_z := layers.Reshape [dim_latent self; 1%nat] sd_z in
  let z := layers.Multiply sd_z epsilon in
  let y_noise := mixing self (layer weights 3) (layer weights 4)
                        (layer weights 5) input_all z in
  let y := layers.Add y_mean_ y_noise in
  y.

Definition _build_model_t2m (self : attrs) : result Model :=
  epsilon <- latent_epsilon self ;;
  Ok {| latent := epsilon;
        latent_shape := [dim_latent self; _n_samples self];
        call := forward_t2m self |}.

Definition forward_ws (self : attrs) (weights : list layer_weights)
           (input_mean input_sd input_all epsilon : Tensor) : Tensor :=
  let x_mean := layers.Flatten input_mean in
  let x_mean := layers.Dense 100 activations.elu (layer weights 0) x_mean in
  let x_mean := layers.Dense 100 activations.elu (layer weights 1) x_mean in
  let x_mean := layers.Dense 100 activations.elu (layer weights 2) x_mean in
  let x_mean := layers.Dense (dim_out self) activations.elu
                             (layer weights 3) x_mean in
  let x_mean := layers.Reshape [dim_out self; 1%nat] x_mean in
  let x_mean_all := repeat_elements x_mean (_n_samples self) in
  let z_delta := layers.Flatten input_sd in
  let z_delta := layers.Dense 100 activations.elu (layer weights 4) z_delta in
  let z_delta := layers.Dense 100 activations.elu (layer weights 5) z_delta in
  let z_delta := layers.Dense 100 activations.elu (layer weights 6) z_delta in
  let z_delta_final := layers.Dense (dim_latent self) activations.exponential
                                    (layer weights 7) z_delta in
  let z_delta_reshape := layers.Reshape [dim_latent self; 1%nat]
                                        z_delta_final in
  let z := layers.Multiply z_delta_reshape epsilon in
  let y_noise := mixing self (layer weights 8) (layer weights 9)
                        (layer weights 10) input_all z in
  let y := layers.Add x_mean_all y_noise in
  let y_positive := tf.map1 activations.softplus y in
  y_positive.

Definition _build_model_ws (self : attrs) : result Model :=
  epsilon <- latent_epsilon self ;;
  Ok {| latent := epsilon;
        latent_shape := [dim_latent self; _n_samples self];
        call := forward_ws self |}.

Definition run_builder (b : builder) : attrs -> result Model :=
  match b with
  | build_t2m => _build_model_t2m
  | build_ws => _build_model_ws
  end.

Definition __init__ (dim_out dim_in_mean dim_in_std dim_in_features
                     dim_latent n_samples_train : nat)
           (model_type latent_dist : string)
           (latent_dist_params : option (R * R)) : result obj :=
  let params :=
    match latent_dist_params with
    | None =>
        if String.eqb latent_dist "uniform" then Some (-1, 1)
        else if String.eqb latent_dist "normal" then Some (0, 1)
        else None
    | Some p => Some p
    end in
  let build :=
    if String.eqb model_type "t2m" then Some build_t2m
    else if String.eqb model_type "ws" then Some build_ws
    else None in
  let self :=
    {| dim_out := dim_out; dim_in_mean := dim_in_mean;
       dim_in_std := dim_in_std; dim_in_features := dim_in_features;
       dim_latent := dim_latent; n_samples_train := n_samples_train;
       latent_dist := latent_dist; latent_dist_params := params;
       _n_samples := n_samples_train; _build_model := build |} in
  match _build_model self with
  | None => Raise (AttributeError "_build_model")
  | Some b =>
      m <- run_builder b self ;;
      Ok {| self := self; model := m |}
  end.

End cgm.

(** The names the constructor knows. *)
Definition valid_model_type (model_type : string) : Prop :=
  model_type = "t2m"%string \/ model_type = "ws"%string.

Definition valid_latent_dist (latent_dist : string) : Prop :=
  latent_dist = "uniform"%string \/ latent_dist = "normal"%string.

(** ** NumPy arrays

    The arrays returned by [Model.predict] are tensors as well. *)

Module np.

(** [np.int (np.ceil (n / m))] for non-negative integers: true division,
    which refuses a zero divisor, then the ceiling. *)
Definition ceil_div (n m : nat) : result nat :=
  if Nat.eqb m 0 then Raise ZeroDivisionError
  else Ok (Z.to_nat
             (Qceiling (inject_Z (Z.of_nat n) / inject_Z (Z.of_nat m)))).

(** The entry of the concatenation of [arrays] along [axis] at [ix]. *)
Fixpoint concatenate_at (arrays : list Tensor) (axis : nat) (ix : list nat)
  : R :=
  match arrays with
  | [] => 0
  | a :: rest =>
      let d := nth axis (shape a) O in
      let k := nth axis ix O in
      if Nat.ltb k d then at_ a ix
      else concatenate_at rest axis (replace_at axis (k - d)%nat ix)
  end.

(** [np.concatenate arrays axis]; an empty sequence is refused. *)
Definition concatenate (arrays : list Tensor) (axis : nat) : result Tensor :=
  match arrays with
  | [] => Raise (ValueError "need at least one array to concatenate")
  | a :: _ =>
      Ok {| shape :=
              replace_at axis
                (fold_right (fun t acc => (nth axis (shape t) O + acc)%nat)
                            O arrays)
                (shape a);
            at_ := concatenate_at arrays axis |}
  end.

(** The slice [a[:, :, 0:stop]] of a rank-3 array. *)
Definition slice_axis2 (a : Tensor) (stop : nat) : Tensor :=
  {| shape := replace_at 2 (Nat.min stop (nth 2 (shape a) O)) (shape a);
     at_ := at_ a |}.

End np.

(** ** Prediction

    The generator of the backend is threaded through the forward passes:
    [draw d s g] is a tensor of shape [s] drawn from [d], and the generator
    after the draw. *)

Section Predict.

Variable rng : Type.
Variable draw : latent_draw -> list nat -> rng -> Tensor * rng.

(** [Model.predict x]: one forward pass on fresh latent noise. *)
Definition model_predict (m : Model) (weights : list layer_weights)
           (x : Tensor * Tensor * Tensor) (g : rng) : Tensor * rng :=
  let '(input_mean, input_sd, input_all) := x in
  let bs := nth 0 (shape input_mean) O in
  let (epsilon, g') := draw (latent m) (bs :: latent_shape m) g in
  (call m weights input_mean input_sd input_all epsilon, g').

(** The generator after one forward pass, and the output of that pass. *)
Definition pass_state (m : Model) (weights : list layer_weights)
           (x_test : Tensor * Tensor * Tensor) (g : rng) : rng :=
  snd (model_predict m weights x_test g).

Definition pass_output (m : Model) (weights : list layer_weights)
           (x_test : Tensor * Tensor * Tensor) (g : rng) : Tensor :=
  fst (model_predict m weights x_test g).

(** [for i in range(k): S.append(self.model.predict(x_test))]. *)
Fixpoint predict_loop (k : nat) (m : Model) (weights : list layer_weights)
         (x_test : Tensor * Tensor * Tensor) (S : list Tensor) (g : rng)
  : list Tensor * rng :=
  match k with
  | O => (S, g)
  | Datatypes.S k' =>
      let (y, g') := model_predict m weights x_test g in
      predict_loop k' m weights x_test (S ++ [y]) g'
  end.

(** The list [S] that [predict] builds, and the generator afterwards. *)
Definition predict_passes (o : cgm.obj) (weights : list layer_weights)
           (x_test : Tensor * Tensor * Tensor) (n_samples : nat) (g : rng)
  : result (list Tensor * rng) :=
  k <- np.ceil_div n_samples (cgm._n_samples (cgm.self o)) ;;
  Ok (predict_loop k (cgm.model o) weights x_test [] g).

(** [predict] returns the array; the generator after the passes is
    returned with it. *)
Definition predict (o : cgm.obj) (weights : list layer_weights)
           (x_test : Tensor * Tensor * Tensor) (n_samples : nat) (g : rng)
  : result (Tensor * rng) :=
  Sg <- predict_passes o weights x_test n_samples g ;;
  a <- np.concatenate (fst Sg) 2 ;;
  Ok (np.slice_axis2 a n_samples, snd Sg).

End Predict.

(** ** Sums *)

Lemma sq_nonneg (x : R) : 0 <= x * x.
Proof. exact (Rle_0_sqr x). Qed.

Lemma rsum_ext (n : nat) (f g : nat -> R) :
  (forall i, (i < n)%nat -> f i = g i) -> rsum n f = rsum n g.
Proof.
  induction n as [|n IH]; intros H; simpl; [reflexivity|].
  rewrite IH by (intros i Hi; apply H; lia).
  rewrite (H n) by lia. reflexivity.
Qed.


Ltac tensor_simpl :=
  cbn -[tf.clip K.epsilon IZR Rmult Rplus Rminus Rdiv INR Rinv
        radicand_12 radicand_22].

Lemma energy_score_at_raw (y_true y_pred : Tensor) (B D N b : nat) :
  shape y_true = [B; D; 1%nat] -> shape y_pred = [B; D; N] -> (b < B)%nat ->
  at_ (energy_score y_true y_pred) [b] =
  rsum N (fun i =>
     sqrt (tf.clip K.epsilon 1e10
             (radicand_12 D (truth y_true b) (sample y_pred b i))))
    / INR N
  - rsum N (fun i => rsum N (fun j =>
     sqrt (tf.clip K.epsilon 1e10
             (radicand_22 D (sample y_pred b i) (sample y_pred b j)))))
    / (2 * INR N * (INR N - 1)).
Proof.
  destruct y_true as [s1 f1], y_pred as [s2 f2]; simpl; intros -> -> Hb.
  unfold radicand_12, radicand_22, truth, sample, tf.shape_float; simpl at_.
  tensor_simpl. rewrite !Nat.min_id.
  destruct (B =? 1)%nat eqn:HB; destruct (N =? 1)%nat eqn:HN;
    repeat (progress (tensor_simpl; rewrite ?HB, ?HN)).
  all: rewrite ?Nat.eqb_eq in *; subst.
  all: try (assert (b = 0)%nat by lia; subst b).
  all: tensor_simpl; rewrite ?Rplus_0_l; reflexivity.
Qed.

(** *** Elementary facts on sums *)

Lemma rsum_plus (n : nat) (f g : nat -> R) :
  rsum n (fun i => f i + g i) = rsum n f + rsum n g.
Proof. induction n as [|n IH]; simpl; [lra | rewrite IH; lra]. Qed.

Lemma rsum_minus (n : nat) (f g : nat -> R) :
  rsum n (fun i => f i - g i) = rsum n f - rsum n g.
Proof. induction n as [|n IH]; simpl; [lra | rewrite IH; lra]. Qed.

Lemma rsum_scal (n : nat) (c : R) (f : nat -> R) :
  rsum n (fun i => c * f i) = c * rsum n f.
Proof. induction n as [|n IH]; simpl; [lra | rewrite IH; lra]. Qed.

Lemma rsum_const (n : nat) (c : R) : rsum n (fun _ => c) = INR n * c.
Proof.
  induction n as [|n IH]; [simpl; lra|].
  rewrite S_INR. simpl rsum. rewrite IH. lra.
Qed.

Lemma rsum_le (n : nat) (f g : nat -> R) :
  (forall i, (i < n)%nat -> f i <= g i) -> rsum n f <= rsum n g.
Proof.
  induction n as [|n IH]; intros H; simpl; [lra|].
  assert (rsum n f <= rsum n g) by (apply IH; intros; apply H; lia).
  assert (f n <= g n) by (apply H; lia). lra.
Qed.

Lemma rsum_nonneg (n : nat) (f : nat -> R) :
  (forall i, (i < n)%nat -> 0 <= f i) -> 0 <= rsum n f.
Proof.
  induction n as [|n IH]; intros H; simpl; [lra|].
  assert (0 <= rsum n f) by (apply IH; intros; apply H; lia).
  assert (0 <= f n) by (apply H; lia). lra.
Qed.


(** *** Squared distances *)

Lemma sqdist_nonneg (D : nat) (u v : nat -> R) : 0 <= sqdist D u v.
Proof. apply rsum_nonneg; intros; apply sq_nonneg. Qed.



Lemma sqdist_expand (D : nat) (u v : nat -> R) :
  sqdist D u v =
  rsum D (fun k => u k * u k) + rsum D (fun k => v k * v k)
  - 2 * rsum D (fun k => u k * v k).
Proof.
  unfold sqdist. rewrite <- rsum_scal, <- rsum_plus, <- rsum_minus.
  apply rsum_ext; intros; ring.
Qed.

(** The Gram-product radicands are the squared distances. *)
Lemma radicand_12_sqdist (D : nat) (t y : nat -> R) :
  radicand_12 D t y = sqdist D t y.
Proof.
  unfold radicand_12. rewrite sqrt_sqrt by (apply rsum_nonneg; intros; apply sq_nonneg).
  rewrite sqdist_expand. reflexivity.
Qed.

Lemma radicand_22_sqdist (D : nat) (yi yj : nat -> R) :
  radicand_22 D yi yj = sqdist D yi yj.
Proof. unfold radicand_22. rewrite sqdist_expand. lra. Qed.

(** The score of example [b] is the estimator with every radicand clipped
    to [[K.epsilon, 1e10]]. *)
Lemma energy_score_at (y_true y_pred : Tensor) (B D N b : nat) :
  shape y_true = [B; D; 1%nat] -> shape y_pred = [B; D; N] -> (b < B)%nat ->
  at_ (energy_score y_true y_pred) [b] =
  es_formula (cdist K.epsilon 1e10 D) N (truth y_true b) (sample y_pred b).
Proof.
  intros H1 H2 Hb. rewrite (energy_score_at_raw _ _ B D N b H1 H2 Hb).
  unfold es_formula, cdist.
  rewrite (rsum_ext N _ (fun i => sqrt (tf.clip K.epsilon 1e10
            (sqdist D (truth y_true b) (sample y_pred b i))))).
  2: { intros; rewrite radicand_12_sqdist; reflexivity. }
  rewrite (rsum_ext N
    (fun i => rsum N (fun j => sqrt (tf.clip K.epsilon 1e10
       (radicand_22 D (sample y_pred b i) (sample y_pred b j)))))
    (fun i => rsum N (fun j => sqrt (tf.clip K.epsilon 1e10
       (sqdist D (sample y_pred b i) (sample y_pred b j)))))).
  2: { intros; apply rsum_ext; intros; rewrite radicand_22_sqdist; reflexivity. }
  unfold Rdiv. lra.
Qed.

(** *** Clipping *)




Lemma clip_bounds (lo hi x : R) : lo <= hi -> lo <= tf.clip lo hi x <= hi.
Proof.
  intros H. unfold tf.clip. split; [apply Rmax_r|].
  apply Rmax_lub; [apply Rmin_r | exact H].
Qed.


Lemma epsilon_pos : 0 < K.epsilon.
Proof. unfold K.epsilon. lra. Qed.

Lemma epsilon_le_max : K.epsilon <= 1e10.
Proof. unfold K.epsilon. lra. Qed.

Lemma sqrt_epsilon_pos : 0 < sqrt K.epsilon.
Proof. apply sqrt_lt_R0, epsilon_pos. Qed.

Lemma sqrt_max : sqrt 1e10 = 1e5.
Proof. replace 1e10 with (1e5 * 1e5) by lra. apply sqrt_square. lra. Qed.

(** *** Clipped distances at known squared distances *)






Lemma cdist_le_max (D : nat) (u v : nat -> R) :
  cdist K.epsilon 1e10 D u v <= 1e5.
Proof.
  unfold cdist. rewrite <- sqrt_max. apply sqrt_le_1_alt.
  apply clip_bounds, epsilon_le_max.
Qed.

Lemma cdist_ge_min (D : nat) (u v : nat -> R) :
  sqrt K.epsilon <= cdist K.epsilon 1e10 D u v.
Proof.
  unfold cdist. apply sqrt_le_1_alt. apply clip_bounds, epsilon_le_max.
Qed.






(** *** Bounds from the clips *)

Lemma INR_ge_2 (N : nat) : (2 <= N)%nat -> 2 <= INR N.
Proof. intros H. apply le_INR in H. simpl in H. lra. Qed.

(** Every distance lies in [[sqrt epsilon, 1e5]], so the estimator lies in
    [[-1e5, 1e5]]. *)
Lemma es_formula_between (D N : nat) (t : nat -> R) (y : nat -> nat -> R) :
  (2 <= N)%nat ->
  - 1e5 <= es_formula (cdist K.epsilon 1e10 D) N t y <= 1e5.
Proof.
  intros HN. apply INR_ge_2 in HN. pose proof sqrt_epsilon_pos as Hse.
  unfold es_formula.
  set (S := rsum N (fun i => cdist K.epsilon 1e10 D t (y i))).
  set (P := rsum N (fun i => rsum N (fun j =>
                      cdist K.epsilon 1e10 D (y i) (y j)))).
  set (n := INR N) in *.
  assert (HS1 : 0 <= S).
  { apply rsum_nonneg. intros i _. pose proof (cdist_ge_min D t (y i)). lra. }
  assert (HS2 : S <= n * 1e5).
  { unfold S, n. rewrite <- rsum_const. apply rsum_le. intros i _.
    apply cdist_le_max. }
  assert (HP1 : 0 <= P).
  { apply rsum_nonneg. intros i _. apply rsum_nonneg. intros j _.
    pose proof (cdist_ge_min D (y i) (y j)). lra. }
  assert (HP2 : P <= n * (n * 1e5)).
  { unfold P, n. rewrite <- rsum_const. apply rsum_le. intros i _.
    rewrite <- rsum_const. apply rsum_le. intros j _. apply cdist_le_max. }
  assert (Hk : 0 < 1 / (2 * n * (n - 1))).
  { apply Rdiv_lt_0_compat; [lra|]. apply Rmult_lt_0_compat; lra. }
  assert (Hk1 : 0 < 1 / n) by (apply Rdiv_lt_0_compat; lra).
  assert (A1 : 0 <= 1 / n * S) by (apply Rmult_le_pos; lra).
  assert (A2 : 1 / n * S <= 1e5).
  { replace 1e5 with (1 / n * (n * 1e5)) by (field; lra).
    apply Rmult_le_compat_l; lra. }
  assert (A3 : 0 <= 1 / (2 * n * (n - 1)) * P) by (apply Rmult_le_pos; lra).
  assert (A4 : 1 / (2 * n * (n - 1)) * P <= 1e5).
  { replace 1e5 with (1 / (2 * n * (n - 1)) * (1e5 * (2 * n * (n - 1))))
      by (field; lra).
    apply Rmult_le_compat_l; [lra|]. nra. }
  lra.
Qed.

(** *** Reindexing a sum by a permutation *)







(** *** One output dimension, two samples *)












(** ** The forward passes *)

Lemma broadcast_rev_same (s : list nat) : broadcast_rev s s = s.
Proof.
  induction s as [|a s IH]; [reflexivity|]. simpl.
  rewrite IH. destruct (a =? 1)%nat; reflexivity.
Qed.

Lemma broadcast_shape_same (s : list nat) : broadcast_shape s s = s.
Proof. unfold broadcast_shape. rewrite broadcast_rev_same. apply rev_involutive. Qed.

Lemma if_same {A : Type} (c : bool) (x : A) : (if c then x else x) = x.
Proof. destruct c; reflexivity. Qed.

Lemma forward_ws_shape (self : cgm.attrs) (weights : list layer_weights)
      (input_mean input_sd input_all epsilon : Tensor) (B F G : nat) :
  shape input_mean = [B; cgm.dim_out self; F] ->
  shape input_all = [B; cgm.dim_out self; G] ->
  shape (cgm.forward_ws self weights input_mean input_sd input_all epsilon)
  = [B; cgm.dim_out self; cgm._n_samples self].
Proof.
  intros H1 H2. unfold cgm.forward_ws, cgm.mixing.
  cbn -[Nat.mul]. rewrite H1, H2. cbn -[Nat.mul].
  rewrite !if_same, Nat.mul_1_l. reflexivity.
Qed.

Lemma forward_t2m_shape (self : cgm.attrs) (weights : list layer_weights)
      (input_mean input_sd input_all epsilon : Tensor) (B F G : nat) :
  shape input_mean = [B; cgm.dim_out self; F] ->
  shape input_all = [B; cgm.dim_out self; G] ->
  shape (cgm.forward_t2m self weights input_mean input_sd input_all epsilon)
  = [B; cgm.dim_out self; cgm._n_samples self].
Proof.
  intros H1 H2. unfold cgm.forward_t2m, cgm.mixing.
  cbn -[Nat.mul]. rewrite H1, H2. cbn -[Nat.mul].
  rewrite !if_same, Nat.mul_1_l. reflexivity.
Qed.

Lemma softplus_pos (x : R) : 0 < activations.softplus x.
Proof.
  unfold activations.softplus. rewrite <- ln_1.
  apply ln_increasing; [lra|]. pose proof (exp_pos x). lra.
Qed.

Lemma forward_ws_pos (self : cgm.attrs) (weights : list layer_weights)
      (input_mean input_sd input_all epsilon : Tensor) (ix : list nat) :
  0 < at_ (cgm.forward_ws self weights input_mean input_sd input_all epsilon) ix.
Proof. unfold cgm.forward_ws. apply softplus_pos. Qed.

(** ** Construction *)

Lemma latent_epsilon_invalid (self : cgm.attrs) :
  ~ valid_latent_dist (cgm.latent_dist self) ->
  cgm.latent_epsilon self = Raise (UnboundLocalError "epsilon").
Proof.
  intros H. unfold cgm.latent_epsilon.
  destruct (String.eqb_spec (cgm.latent_dist self) "uniform") as [E|_].
  { exfalso; apply H; left; exact E. }
  destruct (String.eqb_spec (cgm.latent_dist self) "normal") as [E|_].
  { exfalso; apply H; right; exact E. }
  reflexivity.
Qed.

Lemma init_ok_inv (dim_out dim_in_mean dim_in_std dim_in_features dim_latent
                   n_samples_train : nat) (model_type latent_dist : string)
      (latent_dist_params : option (R * R)) (o : cgm.obj) :
  cgm.__init__ dim_out dim_in_mean dim_in_std dim_in_features dim_latent
               n_samples_train model_type latent_dist latent_dist_params
  = Ok o ->
  cgm.dim_out (cgm.self o) = dim_out
  /\ cgm._n_samples (cgm.self o) = n_samples_train
  /\ cgm.n_samples_train (cgm.self o) = n_samples_train
  /\ ((model_type = "t2m"%string
       /\ call (cgm.model o) = cgm.forward_t2m (cgm.self o))
      \/ (model_type = "ws"%string
          /\ call (cgm.model o) = cgm.forward_ws (cgm.self o))).
Proof.
  unfold cgm.__init__. cbn [cgm._build_model].
  destruct (String.eqb_spec model_type "t2m") as [Et|Nt].
  - cbn [cgm.run_builder]. unfold cgm._build_model_t2m.
    destruct (cgm.latent_epsilon _) as [eps|e]; cbn [bind]; [|discriminate].
    intros H; injection H as <-. cbn.
    repeat (split; [reflexivity|]). left; split; [exact Et | reflexivity].
  - destruct (String.eqb_spec model_type "ws") as [Ew|Nw]; [|discriminate].
    cbn [cgm.run_builder]. unfold cgm._build_model_ws.
    destruct (cgm.latent_epsilon _) as [eps|e]; cbn [bind]; [|discriminate].
    intros H; injection H as <-. cbn.
    repeat (split; [reflexivity|]). right; split; [exact Ew | reflexivity].
Qed.

(** ** Numbers of passes *)

Lemma Qceiling_div (a : Z) (p : positive) :
  Qceiling (inject_Z a / inject_Z (Z.pos p)) = (- ((- a) / Z.pos p))%Z.
Proof.
  unfold Qceiling, Qfloor, Qdiv, Qmult, Qinv, inject_Z, Qopp. simpl.
  rewrite Z.mul_1_r. reflexivity.
Qed.

Lemma ceil_div_nat (n m : nat) :
  (1 <= m)%nat -> np.ceil_div n m = Ok ((n + m - 1) / m)%nat.
Proof.
  intros Hm. unfold np.ceil_div.
  destruct m as [|m']; [lia|]. cbn [Nat.eqb]. f_equal.
  replace (Z.of_nat (S m')) with (Z.pos (Pos.of_succ_nat m')) by lia.
  rewrite Qceiling_div.
  apply Nat2Z.inj. rewrite Z2Nat.id.
  2:{ assert (- Z.of_nat n / Z.pos (Pos.of_succ_nat m') <= 0)%Z; [|lia].
      apply Z.div_le_upper_bound; lia. }
  rewrite Nat2Z.inj_div.
  replace (Z.pos (Pos.of_succ_nat m')) with (Z.of_nat (S m')) by lia.
  set (a := Z.of_nat n). set (b := Z.of_nat (S m')).
  assert (Hb : (0 < b)%Z) by lia.
  replace (Z.of_nat (n + S m' - 1)) with (a + b - 1)%Z by lia.
  pose proof (Z.div_mod (-a) b ltac:(lia)) as E1.
  pose proof (Z.mod_pos_bound (-a) b Hb) as B1.
  pose proof (Z.div_mod (a + b - 1) b ltac:(lia)) as E2.
  pose proof (Z.mod_pos_bound (a + b - 1) b Hb) as B2.
  nia.
Qed.

(** The passes cover the request: [n <= ceil(n/m) * m]. *)
Lemma ceil_covers (n m : nat) :
  (1 <= m)%nat -> (n <= (n + m - 1) / m * m)%nat.
Proof.
  intros Hm.
  pose proof (Nat.div_mod_eq (n + m - 1) m) as E.
  pose proof (Nat.mod_upper_bound (n + m - 1) m ltac:(lia)) as Hb.
  nia.
Qed.

Lemma ceil_positive (n m : nat) :
  (1 <= m)%nat -> (1 <= n)%nat -> (1 <= (n + m - 1) / m)%nat.
Proof.
  intros Hm Hn. apply Nat.div_le_lower_bound; lia.
Qed.

(** ** Concatenation along the sample axis *)

Lemma concatenate_at_block (arrays : list Tensor) (m b d j : nat) :
  (1 <= m)%nat ->
  Forall (fun t => nth 2 (shape t) O = m) arrays ->
  (j < List.length arrays * m)%nat ->
  np.concatenate_at arrays 2 [b; d; j]
  = at_ (nth (j / m) arrays (mkTensor [] (fun _ => 0))) [b; d; (j mod m)%nat].
Proof.
  intros Hm Hall. revert j.
  induction Hall as [|a rest Ha _ IH]; intros j Hj; [simpl in Hj; lia|].
  cbn [np.concatenate_at nth]. rewrite Ha.
  destruct (Nat.ltb_spec j m) as [Hlt|Hge].
  - rewrite Nat.div_small, Nat.mod_small by exact Hlt. reflexivity.
  - cbn [replace_at firstn skipn app].
    assert (Ej : j = (j - m + 1 * m)%nat) by lia.
    assert (Ediv : (j / m = S ((j - m) / m))%nat).
    { rewrite Ej at 1. rewrite Nat.div_add by lia. lia. }
    assert (Emod : (j mod m = (j - m) mod m)%nat).
    { rewrite Ej at 1. rewrite Nat.Div0.mod_add. reflexivity. }
    rewrite Ediv, Emod. cbn [nth]. apply IH.
    cbn [List.length] in Hj. lia.
Qed.

Lemma concatenate_extent (arrays : list Tensor) (m : nat) :
  Forall (fun t => nth 2 (shape t) O = m) arrays ->
  fold_right (fun t acc => (nth 2 (shape t) O + acc)%nat) O arrays
  = (List.length arrays * m)%nat.
Proof.
  induction 1 as [|a rest Ha _ IH]; [reflexivity|].
  cbn [fold_right List.length]. rewrite Ha, IH. lia.
Qed.

(** ** The prediction loop *)

Section PredictLoop.

Variable rng : Type.
Variable draw : latent_draw -> list nat -> rng -> Tensor * rng.
Variable m : Model.
Variable weights : list layer_weights.
Variable x_test : Tensor * Tensor * Tensor.

Let pass_state := pass_state rng draw m weights x_test.
Let pass_output := pass_output rng draw m weights x_test.

Lemma predict_loop_unfold (k : nat) (S : list Tensor) (g : rng) :
  predict_loop rng draw k m weights x_test S g
  = (S ++ List.map (fun i => pass_output (Nat.iter i pass_state g)) (seq 0 k),
     Nat.iter k pass_state g).
Proof.
  revert S g. induction k as [|k IH]; intros S g.
  - cbn. rewrite app_nil_r. reflexivity.
  - cbn [predict_loop].
    assert (Hy : pass_output g = fst (model_predict rng draw m weights x_test g))
      by reflexivity.
    assert (Hg : pass_state g = snd (model_predict rng draw m weights x_test g))
      by reflexivity.
    destruct (model_predict rng draw m weights x_test g) as [y g'].
    cbn [fst snd] in Hy, Hg. subst y g'.
    rewrite IH. rewrite <- app_assoc. f_equal.
    + f_equal. cbn [seq List.map app Nat.iter]. f_equal.
      rewrite <- seq_shift, map_map. apply map_ext. intros i.
      rewrite Nat.iter_succ_r. reflexivity.
    + rewrite Nat.iter_succ_r. reflexivity.
Qed.

End PredictLoop.

(** ** Properties of the energy score *)









(** *** Two samples *)




(** *** The upper clip *)







(** ** Properties of the wrapper *)

(** C3.  Constructing a [cgm] with a [model_type] outside {"t2m", "ws"} or a
    [latent_dist] outside {"uniform", "normal"} raises during construction:
    [AttributeError] on the missing [_build_model] for an unknown model
    type, [UnboundLocalError] on [epsilon] for an unknown distribution.  No
    object is returned. *)
Theorem init_rejects_unknown_names
        (dim_out dim_in_mean dim_in_std dim_in_features dim_latent
         n_samples_train : nat) (model_type latent_dist : string)
        (latent_dist_params : option (R * R)) :
  ~ valid_model_type model_type \/ ~ valid_latent_dist latent_dist ->
  exists e,
    cgm.__init__ dim_out dim_in_mean dim_in_std dim_in_features dim_latent
                 n_samples_train model_type latent_dist latent_dist_params
    = Raise e
    /\ (e = AttributeError "_build_model" \/ e = UnboundLocalError "epsilon").
Proof.
  intros H. unfold cgm.__init__. cbn [cgm._build_model].
  destruct (String.eqb_spec model_type "t2m") as [Et|Nt];
    [|destruct (String.eqb_spec model_type "ws") as [Ew|Nw]].
  - destruct H as [H|H]; [exfalso; apply H; left; exact Et|].
    cbn [cgm.run_builder]. unfold cgm._build_model_t2m.
    rewrite latent_epsilon_invalid by exact H.
    eexists; split; [reflexivity | right; reflexivity].
  - destruct H as [H|H]; [exfalso; apply H; right; exact Ew|].
    cbn [cgm.run_builder]. unfold cgm._build_model_ws.
    rewrite latent_epsilon_invalid by exact H.
    eexists; split; [reflexivity | right; reflexivity].
  - eexists; split; [reflexivity | left; reflexivity].
Qed.

Lemma init_rejects_unknown_names_witness :
  (~ valid_model_type "invalid" \/ ~ valid_latent_dist "uniform")
  /\ exists e,
       cgm.__init__ 3 2 2 7 17 50 "invalid" "uniform" None = Raise e
       /\ (e = AttributeError "_build_model" \/ e = UnboundLocalError "epsilon").
Proof.
  assert (H : ~ valid_model_type "invalid" \/ ~ valid_latent_dist "uniform").
  { left. intros [E|E]; discriminate E. }
  split; [exact H|].
  apply (init_rejects_unknown_names 3 2 2 7 17 50 "invalid" "uniform" None H).
Defined.

(** C4, amended.  Constructing a [cgm] with [n_samples_train = 1] and a
    known [model_type] and [latent_dist] succeeds: the constructor makes no
    check on [n_samples_train] and stores 1 as the sample count of the
    model. *)
Theorem init_accepts_one_sample
        (dim_out dim_in_mean dim_in_std dim_in_features dim_latent : nat)
        (model_type latent_dist : string)
        (latent_dist_params : option (R * R)) :
  valid_model_type model_type -> valid_latent_dist latent_dist ->
  exists o,
    cgm.__init__ dim_out dim_in_mean dim_in_std dim_in_features dim_latent
                 1 model_type latent_dist latent_dist_params
    = Ok o
    /\ cgm.n_samples_train (cgm.self o) = 1%nat
    /\ cgm._n_samples (cgm.self o) = 1%nat
    /\ latent_shape (cgm.model o) = [dim_latent; 1%nat].
Proof.
  intros Hm Hl. unfold cgm.__init__. cbn [cgm._build_model].
  assert (Heps : forall b,
    exists d, cgm.latent_epsilon
      {| cgm.dim_out := dim_out; cgm.dim_in_mean := dim_in_mean;
         cgm.dim_in_std := dim_in_std;
         cgm.dim_in_features := dim_in_features;
         cgm.dim_latent := dim_latent; cgm.n_samples_train := 1;
         cgm.latent_dist := latent_dist;
         cgm.latent_dist_params :=
           match latent_dist_params with
           | Some p => Some p
           | None =>
               if String.eqb latent_dist "uniform" then Some (-1, 1)
               else if String.eqb latent_dist "normal" then Some (0, 1)
               else None
           end;
         cgm._n_samples := 1; cgm._build_model := b |} = Ok d).
  { intros b. unfold cgm.latent_epsilon. cbn [cgm.latent_dist cgm.latent_dist_params].
    destruct Hl as [->| ->]; cbn [String.eqb Ascii.eqb Bool.eqb];
      destruct latent_dist_params as [[p q]|]; eexists; reflexivity. }
  destruct Hm as [->| ->]; cbn [String.eqb Ascii.eqb Bool.eqb cgm.run_builder].
  - unfold cgm._build_model_t2m. destruct (Heps (Some build_t2m)) as [d ->].
    cbn [bind]. eexists. split; [reflexivity|]. cbn. auto.
  - unfold cgm._build_model_ws. destruct (Heps (Some build_ws)) as [d ->].
    cbn [bind]. eexists. split; [reflexivity|]. cbn. auto.
Qed.

Lemma init_accepts_one_sample_witness :
  valid_model_type "ws" /\ valid_latent_dist "normal"
  /\ exists o,
       cgm.__init__ 3 2 2 7 17 1 "ws" "normal" None = Ok o
       /\ cgm.n_samples_train (cgm.self o) = 1%nat
       /\ cgm._n_samples (cgm.self o) = 1%nat
       /\ latent_shape (cgm.model o) = [17%nat; 1%nat].
Proof.
  assert (Hm : valid_model_type "ws") by (right; reflexivity).
  assert (Hl : valid_latent_dist "normal") by (right; reflexivity).
  split; [exact Hm|]. split; [exact Hl|].
  apply (init_accepts_one_sample 3 2 2 7 17 "ws" "normal" None Hm Hl).
Defined.

(** C4 as stated fails: the construction with [n_samples_train = 1] of the
    wind-speed model with normal latent noise returns an object. *)
Lemma init_one_sample_not_rejected :
  ~ (exists e, cgm.__init__ 3 2 2 7 17 1 "ws" "normal" None = Raise e).
Proof. intros [e H]. cbn in H. discriminate H. Qed.

(** C5.  For every input to the "ws" network (any real mean, spread and
    auxiliary features, any layer parameters and any latent draw), every
    entry of the output tensor is non-negative, and indeed positive: the
    output is the softplus of the sum of the two branches. *)
Theorem ws_output_nonnegative
        (dim_out dim_in_mean dim_in_std dim_in_features dim_latent
         n_samples_train : nat) (latent_dist : string)
        (latent_dist_params : option (R * R)) (o : cgm.obj)
        (weights : list layer_weights)
        (input_mean input_sd input_all epsilon : Tensor) (ix : list nat) :
  cgm.__init__ dim_out dim_in_mean dim_in_std dim_in_features dim_latent
               n_samples_train "ws" latent_dist latent_dist_params
  = Ok o ->
  call (cgm.model o) = cgm.forward_ws (cgm.self o)
  /\ 0 <= at_ (call (cgm.model o) weights input_mean input_sd input_all epsilon)
              ix
  /\ 0 < at_ (call (cgm.model o) weights input_mean input_sd input_all epsilon)
             ix.
Proof.
  intros H. apply init_ok_inv in H as [_ [_ [_ [[E _]|[_ E]]]]];
    [discriminate E|].
  rewrite E. split; [reflexivity|].
  pose proof (forward_ws_pos (cgm.self o) weights input_mean input_sd
                             input_all epsilon ix) as Hpos.
  split; [left|]; exact Hpos.
Qed.

Lemma ws_output_nonnegative_witness :
  exists o,
    cgm.__init__ 3 2 2 7 17 50 "ws" "normal" None = Ok o
    /\ 0 <= at_ (call (cgm.model o) [] (obs1 0) (obs1 0) (obs1 0) (obs1 0))
                [0; 0; 0]%nat.
Proof.
  eexists. split; [reflexivity|].
  eapply (ws_output_nonnegative 3 2 2 7 17 50 "normal" None _ []
            (obs1 0) (obs1 0) (obs1 0) (obs1 0) [0; 0; 0]%nat).
  reflexivity.
Defined.

(** *** Prediction *)

Lemma pass_output_shape (rng : Type)
      (draw : latent_draw -> list nat -> rng -> Tensor * rng)
      (dim_out dim_in_mean dim_in_std dim_in_features dim_latent
       n_samples_train : nat) (model_type latent_dist : string)
      (latent_dist_params : option (R * R)) (o : cgm.obj)
      (weights : list layer_weights) (input_mean input_sd input_all : Tensor)
      (B F G : nat) (g : rng) :
  cgm.__init__ dim_out dim_in_mean dim_in_std dim_in_features dim_latent
               n_samples_train model_type latent_dist latent_dist_params
  = Ok o ->
  shape input_mean = [B; dim_out; F] -> shape input_all = [B; dim_out; G] ->
  shape (pass_output rng draw (cgm.model o) weights
                     (input_mean, input_sd, input_all) g)
  = [B; dim_out; n_samples_train].
Proof.
  intros H H1 H2.
  apply init_ok_inv in H as [Ed [En [_ Hcall]]].
  unfold pass_output, model_predict.
  destruct (draw _ _ g) as [eps g']. cbn [fst].
  rewrite <- Ed in H1, H2. rewrite <- Ed, <- En.
  destruct Hcall as [[_ ->]|[_ ->]].
  - apply (forward_t2m_shape _ _ _ _ _ _ B F G H1 H2).
  - apply (forward_ws_shape _ _ _ _ _ _ B F G H1 H2).
Qed.

(** C2.  For every input [x_test] and every [n_samples >= 1], [predict]
    performs exactly [ceil(n_samples / n_samples_train)] forward passes of
    the model, one after the other on the generator the previous pass left,
    each producing [n_samples_train] samples; it concatenates their outputs
    along the sample axis and keeps the first [n_samples] samples, so the
    result has shape (n_examples, dim_out, n_samples).  With [n_samples = 7]
    and [n_samples_train = 5] these are two passes and 7 samples. *)
Theorem predict_ceil_passes_then_truncates
        (rng : Type) (draw : latent_draw -> list nat -> rng -> Tensor * rng)
        (dim_out dim_in_mean dim_in_std dim_in_features dim_latent
         n_samples_train : nat) (model_type latent_dist : string)
        (latent_dist_params : option (R * R)) (o : cgm.obj)
        (weights : list layer_weights) (input_mean input_sd input_all : Tensor)
        (B F G n_samples : nat) (g : rng) :
  cgm.__init__ dim_out dim_in_mean dim_in_std dim_in_features dim_latent
               n_samples_train model_type latent_dist latent_dist_params
  = Ok o ->
  shape input_mean = [B; dim_out; F] -> shape input_all = [B; dim_out; G] ->
  (1 <= n_samples)%nat -> (1 <= n_samples_train)%nat ->
  let x_test := (input_mean, input_sd, input_all) in
  let step := pass_state rng draw (cgm.model o) weights x_test in
  let output := pass_output rng draw (cgm.model o) weights x_test in
  exists (k : nat) (S : list Tensor) (out : Tensor),
    np.ceil_div n_samples n_samples_train = Ok k
    /\ S = List.map (fun i => output (Nat.iter i step g)) (seq 0 k)
    /\ List.length S = k
    /\ Forall (fun y => shape y = [B; dim_out; n_samples_train]) S
    /\ predict_passes rng draw o weights x_test n_samples g
       = Ok (S, Nat.iter k step g)
    /\ predict rng draw o weights x_test n_samples g
       = Ok (out, Nat.iter k step g)
    /\ shape out = [B; dim_out; n_samples]
    /\ (forall b d j, (j < n_samples)%nat ->
          at_ out [b; d; j]
          = at_ (nth (j / n_samples_train) S (mkTensor [] (fun _ => 0)))
                [b; d; (j mod n_samples_train)%nat])
    /\ (n_samples = 7%nat -> n_samples_train = 5%nat ->
        k = 2%nat /\ List.length S = 2%nat /\ nth 2 (shape out) O = 7%nat).
Proof.
  intros Hinit H1 H2 Hn Hm x_test step output.
  set (k := ((n_samples + n_samples_train - 1) / n_samples_train)%nat).
  set (S := List.map (fun i => output (Nat.iter i step g)) (seq 0 k)).
  assert (Hk : np.ceil_div n_samples n_samples_train = Ok k)
    by (apply ceil_div_nat, Hm).
  assert (Hlen : List.length S = k)
    by (unfold S; rewrite length_map, length_seq; reflexivity).
  assert (Hshape : Forall (fun y => shape y = [B; dim_out; n_samples_train]) S).
  { unfold S. apply Forall_forall. intros y Hy.
    apply in_map_iff in Hy as [i [<- _]]. unfold output, x_test.
    eapply pass_output_shape; eassumption. }
  assert (Hext : Forall (fun t => nth 2 (shape t) O = n_samples_train) S).
  { eapply Forall_impl; [|exact Hshape]. intros y Hy. rewrite Hy. reflexivity. }
  assert (Hpasses : predict_passes rng draw o weights x_test n_samples g
                    = Ok (S, Nat.iter k step g)).
  { unfold predict_passes.
    destruct (init_ok_inv _ _ _ _ _ _ _ _ _ _ Hinit) as [_ [-> _]].
    rewrite Hk. cbn [bind]. rewrite predict_loop_unfold. reflexivity. }
  assert (Hcover : (n_samples <= k * n_samples_train)%nat)
    by (apply ceil_covers, Hm).
  assert (Hkpos : (1 <= k)%nat) by (apply ceil_positive; assumption).
  destruct S as [|a rest] eqn:ES; [cbn in Hlen; lia|].
  exists k, (a :: rest), (np.slice_axis2
    {| shape := replace_at 2
         (fold_right (fun t acc => (nth 2 (shape t) O + acc)%nat) O (a :: rest))
         (shape a);
       at_ := np.concatenate_at (a :: rest) 2 |} n_samples).
  split; [exact Hk|]. split; [symmetry; exact ES|]. split; [exact Hlen|].
  split; [exact Hshape|]. split; [exact Hpasses|].
  assert (Hout : shape (np.slice_axis2
    {| shape := replace_at 2
         (fold_right (fun t acc => (nth 2 (shape t) O + acc)%nat) O (a :: rest))
         (shape a);
       at_ := np.concatenate_at (a :: rest) 2 |} n_samples)
    = [B; dim_out; n_samples]).
  { rewrite (concatenate_extent (a :: rest) n_samples_train Hext), Hlen.
    inversion Hshape as [|? ? Ha _]; subst. rewrite Ha.
    cbn. rewrite Nat.min_l by exact Hcover. reflexivity. }
  split.
  { unfold predict. rewrite Hpasses. cbn [bind fst snd np.concatenate].
    reflexivity. }
  split; [exact Hout|]. split.
  { intros b d j Hj. cbn [np.slice_axis2 at_].
    apply concatenate_at_block; [exact Hm | exact Hext | rewrite Hlen; lia]. }
  intros E7 E5. rewrite Hout. subst n_samples n_samples_train.
  rewrite Hlen. repeat split; reflexivity.
Qed.

Lemma predict_ceil_passes_then_truncates_witness :
  exists o,
    cgm.__init__ 3 2 2 7 17 5 "ws" "normal" None = Ok o
    /\ shape (zeros [4; 3; 2]%nat) = [4; 3; 2]%nat
    /\ shape (zeros [4; 3; 7]%nat) = [4; 3; 7]%nat
    /\ (1 <= 7)%nat /\ (1 <= 5)%nat
    /\ exists out g',
         predict unit (fun _ s g => (zeros s, g)) o []
                 (zeros [4; 3; 2]%nat, zeros [4; 3; 2]%nat, zeros [4; 3; 7]%nat)
                 7 tt
         = Ok (out, g')
         /\ shape out = [4; 3; 7]%nat.
Proof.
  eexists. split; [reflexivity|].
  split; [reflexivity|]. split; [reflexivity|]. split; [lia|]. split; [lia|].
  pose proof (fun o H =>
    predict_ceil_passes_then_truncates
      unit (fun _ s g => (zeros s, g)) 3 2 2 7 17 5 "ws" "normal" None
      o [] (zeros [4; 3; 2]%nat) (zeros [4; 3; 2]%nat)
      (zeros [4; 3; 7]%nat) 4 2 7 7 tt H eq_refl eq_refl
      (le_S _ _ (le_S _ _ (le_S _ _ (le_S _ _ (le_S _ _ (le_S _ _ (le_n 1)))))))
      (le_S _ _ (le_S _ _ (le_S _ _ (le_S _ _ (le_n 1)))))) as P.
  edestruct P as (k & S & out & _ & _ & _ & _ & _ & Hp & Hs & _);
    [reflexivity|].
  exists out. eexists. split; [exact Hp | exact Hs].
Defined.

(** ** Further properties of the energy score *)

(** An index in range is read as it is under broadcasting. *)
Lemma bindex_in_range3 (B D N b d s : nat) :
  (b < B)%nat -> (d < D)%nat -> (s < N)%nat ->
  bindex [B; D; N] [b; d; s] = [b; d; s].
Proof.
  intros Hb Hd Hs. unfold bindex. cbn.
  destruct (Nat.eqb_spec B 1), (Nat.eqb_spec D 1), (Nat.eqb_spec N 1);
    repeat f_equal; lia.
Qed.

(** *** The score reads its arguments entry by entry *)

Lemma sqdist_ext (D : nat) (u v u' v' : nat -> R) :
  (forall k, (k < D)%nat -> u k = u' k) ->
  (forall k, (k < D)%nat -> v k = v' k) ->
  sqdist D u v = sqdist D u' v'.
Proof.
  intros Hu Hv. apply rsum_ext. intros k Hk.
  rewrite (Hu k Hk), (Hv k Hk). reflexivity.
Qed.

Lemma es_formula_ext (lo hi : R) (D N : nat) (t t' : nat -> R)
      (y y' : nat -> nat -> R) :
  (forall k, (k < D)%nat -> t k = t' k) ->
  (forall i k, (i < N)%nat -> (k < D)%nat -> y i k = y' i k) ->
  es_formula (cdist lo hi D) N t y = es_formula (cdist lo hi D) N t' y'.
Proof.
  intros Ht Hy. unfold es_formula, cdist. f_equal.
  - f_equal. apply rsum_ext. intros i Hi.
    rewrite (sqdist_ext D t (y i) t' (y' i)); [reflexivity | exact Ht|].
    intros k Hk. apply Hy; assumption.
  - f_equal. apply rsum_ext. intros i Hi. apply rsum_ext. intros j Hj.
    rewrite (sqdist_ext D (y i) (y j) (y' i) (y' j)); [reflexivity| |];
      intros k Hk; apply Hy; assumption.
Qed.

(** The distance terms are invariant under a distance-preserving change. *)
Lemma es_formula_isometry (lo hi : R) (D N : nat) (t t' : nat -> R)
      (y y' : nat -> nat -> R) :
  (forall i, (i < N)%nat -> sqdist D t (y i) = sqdist D t' (y' i)) ->
  (forall i j, (i < N)%nat -> (j < N)%nat ->
     sqdist D (y i) (y j) = sqdist D (y' i) (y' j)) ->
  es_formula (cdist lo hi D) N t y = es_formula (cdist lo hi D) N t' y'.
Proof.
  intros Ht Hy. unfold es_formula, cdist. f_equal.
  - f_equal. apply rsum_ext. intros i Hi. rewrite Ht by exact Hi. reflexivity.
  - f_equal. apply rsum_ext. intros i Hi. apply rsum_ext. intros j Hj.
    rewrite Hy by assumption. reflexivity.
Qed.

(** X1.  For [N >= 2] every entry of the score is at most 1e5: the first
    term is a mean of distances clipped at 1e5 and the pairwise term, which
    is subtracted, is not negative, so far-off samples saturate the loss. *)
Theorem energy_score_at_most_clip_ceiling
        (y_true y_pred : Tensor) (B D N b : nat) :
  shape y_true = [B; D; 1%nat] -> shape y_pred = [B; D; N] -> (2 <= N)%nat ->
  (b < B)%nat ->
  at_ (energy_score y_true y_pred) [b] <= 1e5.
Proof.
  intros H1 H2 HN Hb. rewrite (energy_score_at _ _ B D N b H1 H2 Hb).
  apply es_formula_between, HN.
Qed.

Lemma energy_score_at_most_clip_ceiling_witness :
  shape (obs1 0) = [1; 1; 1]%nat /\ shape (pair1 2e5 2e5) = [1; 1; 2]%nat
  /\ (2 <= 2)%nat /\ (0 < 1)%nat
  /\ at_ (energy_score (obs1 0) (pair1 2e5 2e5)) [0%nat] <= 1e5.
Proof.
  split; [reflexivity|]. split; [reflexivity|]. split; [lia|]. split; [lia|].
  apply (energy_score_at_most_clip_ceiling (obs1 0) (pair1 2e5 2e5) 1 1 2 0);
    [reflexivity | reflexivity | lia | lia].
Defined.

(** X3.  Negating the observation and every sample leaves the score of
    every example unchanged. *)
Theorem energy_score_reflection_invariant
        (y_true y_pred : Tensor) (B D N b : nat) :
  shape y_true = [B; D; 1%nat] -> shape y_pred = [B; D; N] ->
  (2 <= N)%nat -> (b < B)%nat ->
  at_ (energy_score (tf.scalar_mul (-1) y_true) (tf.scalar_mul (-1) y_pred)) [b]
  = at_ (energy_score y_true y_pred) [b].
Proof.
  intros H1 H2 HN Hb.
  rewrite (energy_score_at (tf.scalar_mul (-1) y_true)
                           (tf.scalar_mul (-1) y_pred) B D N b H1 H2 Hb).
  rewrite (energy_score_at _ _ B D N b H1 H2 Hb).
  apply es_formula_isometry.
  - intros i Hi. apply rsum_ext. intros k Hk.
    unfold truth, sample, tf.scalar_mul, tf.map1. cbn [at_]. ring.
  - intros i j Hi Hj. apply rsum_ext. intros k Hk.
    unfold sample, tf.scalar_mul, tf.map1. cbn [at_]. ring.
Qed.

Lemma energy_score_reflection_invariant_witness :
  shape (obs1 0) = [1; 1; 1]%nat /\ shape (pair1 1 3) = [1; 1; 2]%nat
  /\ (2 <= 2)%nat /\ (0 < 1)%nat
  /\ at_ (energy_score (tf.scalar_mul (-1) (obs1 0))
                       (tf.scalar_mul (-1) (pair1 1 3))) [0%nat]
     = at_ (energy_score (obs1 0) (pair1 1 3)) [0%nat].
Proof.
  split; [reflexivity|]. split; [reflexivity|]. split; [lia|]. split; [lia|].
  apply (energy_score_reflection_invariant (obs1 0) (pair1 1 3) 1 1 2 0);
    [reflexivity | reflexivity | lia | lia].
Defined.

(** X4.  The score of an example depends on that example alone: two
    batches, of any sizes, that hold the same observation and the same
    samples at positions [b] and [b'] get the same score there. *)
Theorem energy_score_example_wise
        (y_true y_pred y_true' y_pred' : Tensor) (B B' D N b b' : nat) :
  shape y_true = [B; D; 1%nat] -> shape y_pred = [B; D; N] ->
  shape y_true' = [B'; D; 1%nat] -> shape y_pred' = [B'; D; N] ->
  (2 <= N)%nat -> (b < B)%nat -> (b' < B')%nat ->
  (forall k, (k < D)%nat -> at_ y_true [b; k; O] = at_ y_true' [b'; k; O]) ->
  (forall k i, (k < D)%nat -> (i < N)%nat ->
     at_ y_pred [b; k; i] = at_ y_pred' [b'; k; i]) ->
  at_ (energy_score y_true y_pred) [b] = at_ (energy_score y_true' y_pred') [b'].
Proof.
  intros H1 H2 H1' H2' HN Hb Hb' Et Ey.
  rewrite (energy_score_at _ _ B D N b H1 H2 Hb).
  rewrite (energy_score_at _ _ B' D N b' H1' H2' Hb').
  apply es_formula_ext.
  - exact Et.
  - intros i k Hi Hk. apply Ey; assumption.
Qed.

Lemma energy_score_example_wise_witness :
  shape (obs1 0) = [1; 1; 1]%nat /\ shape (pair1 1 3) = [1; 1; 2]%nat
  /\ shape (constant3 [[[7]]; [[0]]]) = [2; 1; 1]%nat
  /\ shape (constant3 [[[9; 9]]; [[1; 3]]]) = [2; 1; 2]%nat
  /\ (2 <= 2)%nat /\ (0 < 1)%nat /\ (1 < 2)%nat
  /\ at_ (energy_score (obs1 0) (pair1 1 3)) [0%nat]
     = at_ (energy_score (constant3 [[[7]]; [[0]]])
                         (constant3 [[[9; 9]]; [[1; 3]]])) [1%nat].
Proof.
  split; [reflexivity|]. split; [reflexivity|]. split; [reflexivity|].
  split; [reflexivity|]. split; [lia|]. split; [lia|]. split; [lia|].
  apply (energy_score_example_wise
           (obs1 0) (pair1 1 3) (constant3 [[[7]]; [[0]]])
           (constant3 [[[9; 9]]; [[1; 3]]]) 1 2 1 2 0 1);
    [reflexivity | reflexivity | reflexivity | reflexivity | lia | lia | lia
    | |].
  - intros k Hk. assert (k = 0)%nat as -> by lia. reflexivity.
  - intros k i Hk Hi. assert (k = 0)%nat as -> by lia.
    destruct i as [|[|i]]; [reflexivity | reflexivity | lia].
Defined.

(** ** Further properties of the constructor *)

(** The parameters of the latent draw: those passed, or the defaults of the
    named family. *)
Lemma init_latent (dim_out dim_in_mean dim_in_std dim_in_features dim_latent
                   n_samples_train : nat) (model_type latent_dist : string)
      (latent_dist_params : option (R * R)) (o : cgm.obj) :
  cgm.__init__ dim_out dim_in_mean dim_in_std dim_in_features dim_latent
               n_samples_train model_type latent_dist latent_dist_params
  = Ok o ->
  cgm.latent_epsilon (cgm.self o) = Ok (latent (cgm.model o))
  /\ cgm.latent_dist (cgm.self o) = latent_dist
  /\ cgm.dim_latent (cgm.self o) = dim_latent
  /\ latent_shape (cgm.model o) = [dim_latent; n_samples_train]
  /\ cgm.latent_dist_params (cgm.self o)
     = match latent_dist_params with
       | Some p => Some p
       | None =>
           if String.eqb latent_dist "uniform" then Some (-1, 1)
           else if String.eqb latent_dist "normal" then Some (0, 1)
           else None
       end.
Proof.
  unfold cgm.__init__. cbn [cgm._build_model].
  destruct (String.eqb model_type "t2m");
    [|destruct (String.eqb model_type "ws"); [|discriminate]];
    cbn [cgm.run_builder]; unfold cgm._build_model_t2m, cgm._build_model_ws;
    destruct (cgm.latent_epsilon _) as [eps|e] eqn:E; cbn [bind];
    try discriminate; intros H; injection H as <-;
    cbn [cgm.self cgm.model latent latent_shape cgm.latent_dist
         cgm.dim_latent cgm.latent_dist_params];
    (split; [exact E|]); repeat split.
Qed.

(** X7.  A constructed model draws its latent tensor, of shape
    (batch, dim_latent, n_samples_train), from the named family with the
    parameters passed, and without them from uniform(-1, 1) or
    normal(0, 1). *)
Theorem init_latent_defaults
        (dim_out dim_in_mean dim_in_std dim_in_features dim_latent
         n_samples_train : nat) (model_type latent_dist : string)
        (latent_dist_params : option (R * R)) (o : cgm.obj) :
  cgm.__init__ dim_out dim_in_mean dim_in_std dim_in_features dim_latent
               n_samples_train model_type latent_dist latent_dist_params
  = Ok o ->
  latent_shape (cgm.model o) = [dim_latent; n_samples_train]
  /\ (latent_dist = "uniform"%string ->
      latent (cgm.model o)
      = match latent_dist_params with
        | Some (lo, hi) => random_uniform lo hi
        | None => random_uniform (-1) 1
        end)
  /\ (latent_dist = "normal"%string ->
      latent (cgm.model o)
      = match latent_dist_params with
        | Some (mu, sd) => random_normal mu sd
        | None => random_normal 0 1
        end).
Proof.
  intros H. apply init_latent in H as [E [El [_ [Hs Hp]]]].
  split; [exact Hs|].
  unfold cgm.latent_epsilon in E. rewrite El, Hp in E.
  split; intros ->; cbn [String.eqb Ascii.eqb Bool.eqb] in E;
    destruct latent_dist_params as [[p q]|]; injection E as <-; reflexivity.
Qed.

Lemma init_latent_defaults_witness :
  exists o,
    cgm.__init__ 3 2 2 7 17 50 "ws" "normal" None = Ok o
    /\ latent (cgm.model o) = random_normal 0 1.
Proof.
  eexists. split; [reflexivity|].
  pose proof (fun o H =>
    init_latent_defaults 3 2 2 7 17 50 "ws" "normal" None o H) as P.
  edestruct P as [_ [_ Hn]]; [reflexivity|]. exact (Hn eq_refl).
Defined.

(** X6.  The constructor has three outcomes.  An unknown [model_type]
    raises [AttributeError] whatever the other arguments, the model type
    being looked at first; a known one with an unknown [latent_dist] raises
    [UnboundLocalError], also when [latent_dist_params] is passed; both
    known, an object is returned that keeps [n_samples_train] and
    [dim_out], whatever their values.  So construction succeeds exactly
    when both names are known. *)
Theorem init_outcome
        (dim_out dim_in_mean dim_in_std dim_in_features dim_latent
         n_samples_train : nat) (model_type latent_dist : string)
        (latent_dist_params : option (R * R)) :
  let r := cgm.__init__ dim_out dim_in_mean dim_in_std dim_in_features
                        dim_latent n_samples_train model_type latent_dist
                        latent_dist_params in
  (~ valid_model_type model_type -> r = Raise (AttributeError "_build_model"))
  /\ (valid_model_type model_type -> ~ valid_latent_dist latent_dist ->
      r = Raise (UnboundLocalError "epsilon"))
  /\ (valid_model_type model_type -> valid_latent_dist latent_dist ->
      exists o, r = Ok o
                /\ cgm._n_samples (cgm.self o) = n_samples_train
                /\ cgm.dim_out (cgm.self o) = dim_out)
  /\ ((exists o, r = Ok o)
      <-> valid_model_type model_type /\ valid_latent_dist latent_dist).
Proof.
  intros r.
  assert (A : ~ valid_model_type model_type ->
              r = Raise (AttributeError "_build_model")).
  { intros Hm. unfold r, cgm.__init__. cbn [cgm._build_model].
    destruct (String.eqb_spec model_type "t2m") as [E|_];
      [exfalso; apply Hm; left; exact E|].
    destruct (String.eqb_spec model_type "ws") as [E|_];
      [exfalso; apply Hm; right; exact E|]. reflexivity. }
  assert (Bq : valid_model_type model_type -> ~ valid_latent_dist latent_dist ->
               r = Raise (UnboundLocalError "epsilon")).
  { intros Hm Hl. unfold r, cgm.__init__. cbn [cgm._build_model].
    destruct Hm as [->| ->]; cbn [String.eqb Ascii.eqb Bool.eqb cgm.run_builder];
      unfold cgm._build_model_t2m, cgm._build_model_ws;
      rewrite latent_epsilon_invalid by exact Hl; reflexivity. }
  assert (C : valid_model_type model_type -> valid_latent_dist latent_dist ->
              exists o, r = Ok o
                        /\ cgm._n_samples (cgm.self o) = n_samples_train
                        /\ cgm.dim_out (cgm.self o) = dim_out).
  { intros Hm Hl. unfold r, cgm.__init__. cbn [cgm._build_model].
    destruct Hm as [->| ->]; cbn [String.eqb Ascii.eqb Bool.eqb cgm.run_builder];
      unfold cgm._build_model_t2m, cgm._build_model_ws, cgm.latent_epsilon;
      cbn [cgm.latent_dist cgm.latent_dist_params];
      destruct Hl as [->| ->]; cbn [String.eqb Ascii.eqb Bool.eqb];
      destruct latent_dist_params as [[p q]|]; cbn [bind];
      eexists; (split; [reflexivity|]); split; reflexivity. }
  split; [exact A|]. split; [exact Bq|]. split; [exact C|].
  split.
  - intros [o Ho].
    assert (Hm : valid_model_type model_type).
    { unfold valid_model_type.
      destruct (String.eqb_spec model_type "t2m") as [E|N1]; [left; exact E|].
      destruct (String.eqb_spec model_type "ws") as [E|N2]; [right; exact E|].
      rewrite A in Ho; [discriminate Ho|]. intros [E|E]; contradiction. }
    split; [exact Hm|].
    unfold valid_latent_dist.
    destruct (String.eqb_spec latent_dist "uniform") as [E|N1]; [left; exact E|].
    destruct (String.eqb_spec latent_dist "normal") as [E|N2]; [right; exact E|].
    rewrite Bq in Ho; [discriminate Ho | exact Hm |].
    intros [E|E]; contradiction.
  - intros [Hm Hl]. destruct (C Hm Hl) as [o [Ho _]]. exists o. exact Ho.
Qed.

Lemma init_outcome_witness :
  cgm.__init__ 3 2 2 7 17 50 "invalid" "gamma" (Some (0, 1))
  = Raise (AttributeError "_build_model")
  /\ cgm.__init__ 3 2 2 7 17 50 "t2m" "gamma" (Some (0, 1))
     = Raise (UnboundLocalError "epsilon").
Proof.
  destruct (init_outcome 3 2 2 7 17 50 "invalid" "gamma" (Some (0, 1)))
    as [A _].
  destruct (init_outcome 3 2 2 7 17 50 "t2m" "gamma" (Some (0, 1)))
    as [_ [Bq _]].
  split.
  - apply A. intros [E|E]; discriminate E.
  - apply Bq; [left; reflexivity|]. intros [E|E]; discriminate E.
Defined.

(** ** Further properties of the networks *)

Ltac layer_simpl :=
  cbn -[rsum Nat.mul Nat.div Nat.modulo Nat.ltb Nat.sub Nat.add
        activations.elu activations.softplus activations.exponential
        activations.linear Rmult Rplus].

Ltac layer_simpl_in H :=
  cbn -[rsum Nat.mul Nat.div Nat.modulo Nat.ltb Nat.sub Nat.add
        activations.elu activations.softplus activations.exponential
        activations.linear Rmult Rplus] in H.

Lemma Dense_last (units : nat) (act : R -> R) (w : layer_weights) (x : Tensor) :
  last (shape (layers.Dense units act w x)) O = units.
Proof. unfold layers.Dense. cbn [shape]. apply last_last. Qed.

Lemma Dense_row_ext (units : nat) (act : R -> R) (w : layer_weights)
      (x x' : Tensor) (b s s' c : nat) :
  last (shape x) O = last (shape x') O ->
  (forall i, (i < last (shape x) O)%nat -> at_ x [b; s; i] = at_ x' [b; s'; i]) ->
  at_ (layers.Dense units act w x) [b; s; c]
  = at_ (layers.Dense units act w x') [b; s'; c].
Proof.
  intros Hl Hx. unfold layers.Dense. layer_simpl. rewrite <- Hl.
  f_equal. f_equal. apply rsum_ext. intros i Hi. rewrite Hx by exact Hi.
  reflexivity.
Qed.

Lemma mixing_column (self : cgm.attrs) (w1 w2 w3 : layer_weights)
      (input_all z z' : Tensor) (b d s s' : nat) :
  nth 1 (shape z) O = nth 1 (shape z') O ->
  (s < cgm._n_samples self)%nat -> (s' < cgm._n_samples self)%nat ->
  (forall k, (k < nth 1 (shape z) O)%nat -> at_ z [b; k; s] = at_ z' [b; k; s']) ->
  at_ (cgm.mixing self w1 w2 w3 input_all z) [b; d; s]
  = at_ (cgm.mixing self w1 w2 w3 input_all z') [b; d; s'].
Proof.
  intros Hs Hlt Hlt' Hz. unfold cgm.mixing.
  change (at_ (layers.Permute [2; 1]%nat ?Y) [b; d; s]) with (at_ Y [b; s; d]).
  change (at_ (layers.Permute [2; 1]%nat ?Y) [b; d; s']) with (at_ Y [b; s'; d]).
  apply Dense_row_ext; [rewrite !Dense_last; reflexivity|]. intros i3 _.
  apply Dense_row_ext; [rewrite !Dense_last; reflexivity|]. intros i2 _.
  apply Dense_row_ext.
  - layer_simpl. rewrite Hs. reflexivity.
  - intros i Hi. layer_simpl_in Hi. layer_simpl.
    rewrite !(Nat.div_small _ (cgm._n_samples self)) by assumption.
    destruct (Nat.ltb_spec i (cgm.dim_out self * cgm.dim_in_features self));
      [reflexivity | apply Hz; lia].
Qed.

Lemma mixing_shape (self : cgm.attrs) (w1 w2 w3 : layer_weights)
      (input_all z : Tensor) :
  shape (cgm.mixing self w1 w2 w3 input_all z)
  = [hd O (shape input_all); cgm.dim_out self; cgm._n_samples self].
Proof. unfold cgm.mixing. layer_simpl. rewrite Nat.mul_1_l. reflexivity. Qed.

Lemma repeat_column (x : Tensor) (rep b d s s' : nat) :
  (s < rep)%nat -> (s' < rep)%nat ->
  at_ (repeat_elements x rep) [b; d; s] = at_ (repeat_elements x rep) [b; d; s'].
Proof.
  intros H H'. unfold repeat_elements. layer_simpl.
  rewrite !(Nat.div_small _ rep) by assumption. reflexivity.
Qed.

(** The scaled latent noise [sd * epsilon] at an entry in range. *)
Lemma multiply_latent_at (sd eps : Tensor) (B L N b k s : nat) :
  shape eps = [B; L; N] -> nth 2 (shape sd) O = 1%nat ->
  List.length (shape sd) = 3%nat ->
  (b < B)%nat -> (k < L)%nat -> (s < N)%nat ->
  at_ (layers.Multiply sd eps) [b; k; s]
  = at_ sd (bindex (shape sd) [b; k; O]) * at_ eps [b; k; s].
Proof.
  intros He H1 Hlen Hb Hk Hs. unfold layers.Multiply, tf.map2. cbn [at_].
  rewrite He, bindex_in_range3 by assumption. f_equal. f_equal.
  destruct (shape sd) as [|x0 [|x1 [|x2 [|? ?]]]]; try discriminate Hlen.
  cbn in H1. subst x2. reflexivity.
Qed.

Lemma multiply_latent_extent (sd eps : Tensor) (B L N h : nat) :
  shape eps = [B; L; N] -> shape sd = [h; L; 1%nat] ->
  nth 1 (shape (layers.Multiply sd eps)) O = L.
Proof.
  intros He Hs. unfold layers.Multiply, tf.map2. cbn [shape].
  rewrite He, Hs. cbn. apply if_same.
Qed.

Lemma forward_ws_column (self : cgm.attrs) (weights : list layer_weights)
      (input_mean input_sd input_all eps eps' : Tensor)
      (B F G b d s s' : nat) :
  shape input_mean = [B; cgm.dim_out self; F] ->
  shape input_all = [B; cgm.dim_out self; G] ->
  shape eps = [B; cgm.dim_latent self; cgm._n_samples self] ->
  shape eps' = [B; cgm.dim_latent self; cgm._n_samples self] ->
  (b < B)%nat -> (d < cgm.dim_out self)%nat ->
  (s < cgm._n_samples self)%nat -> (s' < cgm._n_samples self)%nat ->
  (forall k, (k < cgm.dim_latent self)%nat ->
     at_ eps [b; k; s] = at_ eps' [b; k; s']) ->
  at_ (cgm.forward_ws self weights input_mean input_sd input_all eps) [b; d; s]
  = at_ (cgm.forward_ws self weights input_mean input_sd input_all eps')
        [b; d; s'].
Proof.
  intros H1 H2 He He' Hb Hd Hs Hs' Hcol. unfold cgm.forward_ws.
  cbn [tf.map1 at_]. f_equal.
  unfold layers.Add, tf.add, tf.map2. cbn [at_].
  rewrite !mixing_shape, H2. cbn [hd].
  match goal with
  | |- context [bindex (shape (repeat_elements ?x ?n))] =>
      assert (Hm : shape (repeat_elements x n)
                   = [B; cgm.dim_out self; cgm._n_samples self])
        by (layer_simpl; rewrite H1; layer_simpl; rewrite Nat.mul_1_l;
            reflexivity)
  end.
  rewrite Hm, !bindex_in_range3 by assumption.
  f_equal; [apply repeat_column; assumption|].
  match goal with
  | |- context [layers.Multiply ?sd eps] =>
      assert (Hsd : shape sd = [hd O (shape input_sd); cgm.dim_latent self; 1%nat])
        by (layer_simpl; reflexivity)
  end.
  apply mixing_column; try assumption.
  - rewrite (multiply_latent_extent _ eps B _ _ _ He Hsd).
    rewrite (multiply_latent_extent _ eps' B _ _ _ He' Hsd). reflexivity.
  - intros k Hk. rewrite (multiply_latent_extent _ eps B _ _ _ He Hsd) in Hk.
    rewrite (multiply_latent_at _ eps B _ _ b k s He) by
      (try assumption; rewrite Hsd; reflexivity).
    rewrite (multiply_latent_at _ eps' B _ _ b k s' He') by
      (try assumption; rewrite Hsd; reflexivity).
    rewrite Hcol by exact Hk. reflexivity.
Qed.

Lemma forward_t2m_column (self : cgm.attrs) (weights : list layer_weights)
      (input_mean input_sd input_all eps eps' : Tensor)
      (B F G b d s s' : nat) :
  shape input_mean = [B; cgm.dim_out self; F] ->
  shape input_all = [B; cgm.dim_out self; G] ->
  shape eps = [B; cgm.dim_latent self; cgm._n_samples self] ->
  shape eps' = [B; cgm.dim_latent self; cgm._n_samples self] ->
  (b < B)%nat -> (d < cgm.dim_out self)%nat ->
  (s < cgm._n_samples self)%nat -> (s' < cgm._n_samples self)%nat ->
  (forall k, (k < cgm.dim_latent self)%nat ->
     at_ eps [b; k; s] = at_ eps' [b; k; s']) ->
  at_ (cgm.forward_t2m self weights input_mean input_sd input_all eps) [b; d; s]
  = at_ (cgm.forward_t2m self weights input_mean input_sd input_all eps')
        [b; d; s'].
Proof.
  intros H1 H2 He He' Hb Hd Hs Hs' Hcol. unfold cgm.forward_t2m.
  unfold layers.Add, tf.add, tf.map2. cbn [at_].
  rewrite !mixing_shape, H2. cbn [hd].
  match goal with
  | |- context [bindex (shape (repeat_elements ?x ?n))] =>
      assert (Hm : shape (repeat_elements x n)
                   = [B; cgm.dim_out self; cgm._n_samples self])
        by (layer_simpl; rewrite H1; layer_simpl; rewrite Nat.mul_1_l;
            reflexivity)
  end.
  rewrite Hm, !bindex_in_range3 by assumption.
  f_equal; [apply repeat_column; assumption|].
  match goal with
  | |- context [layers.Multiply ?sd eps] =>
      assert (Hsd : shape sd = [nth 0 (shape input_sd) O; cgm.dim_latent self; 1%nat])
        by (layer_simpl; reflexivity)
  end.
  apply mixing_column; try assumption.
  - rewrite (multiply_latent_extent _ eps B _ _ _ He Hsd).
    rewrite (multiply_latent_extent _ eps' B _ _ _ He' Hsd). reflexivity.
  - intros k Hk. rewrite (multiply_latent_extent _ eps B _ _ _ He Hsd) in Hk.
    rewrite (multiply_latent_at _ eps B _ _ b k s He) by
      (try assumption; rewrite Hsd; reflexivity).
    rewrite (multiply_latent_at _ eps' B _ _ b k s' He') by
      (try assumption; rewrite Hsd; reflexivity).
    rewrite Hcol by exact Hk. reflexivity.
Qed.

(** Both variants, through the constructor. *)
Lemma call_column (dim_out dim_in_mean dim_in_std dim_in_features dim_latent
                   n_samples_train : nat) (model_type latent_dist : string)
      (latent_dist_params : option (R * R)) (o : cgm.obj)
      (weights : list layer_weights)
      (input_mean input_sd input_all eps eps' : Tensor)
      (B F G b d s s' : nat) :
  cgm.__init__ dim_out dim_in_mean dim_in_std dim_in_features dim_latent
               n_samples_train model_type latent_dist latent_dist_params
  = Ok o ->
  shape input_mean = [B; dim_out; F] -> shape input_all = [B; dim_out; G] ->
  shape eps = [B; dim_latent; n_samples_train] ->
  shape eps' = [B; dim_latent; n_samples_train] ->
  (b < B)%nat -> (d < dim_out)%nat ->
  (s < n_samples_train)%nat -> (s' < n_samples_train)%nat ->
  (forall k, (k < dim_latent)%nat -> at_ eps [b; k; s] = at_ eps' [b; k; s']) ->
  at_ (call (cgm.model o) weights input_mean input_sd input_all eps) [b; d; s]
  = at_ (call (cgm.model o) weights input_mean input_sd input_all eps')
        [b; d; s'].
Proof.
  intros Hinit H1 H2 He He' Hb Hd Hs Hs' Hcol.
  destruct (init_ok_inv _ _ _ _ _ _ _ _ _ _ Hinit) as [Ed [En [_ Hcall]]].
  assert (El : cgm.dim_latent (cgm.self o) = dim_latent).
  { revert Hinit. unfold cgm.__init__. cbn [cgm._build_model].
    destruct (String.eqb model_type "t2m");
      [|destruct (String.eqb model_type "ws"); [|discriminate]];
      cbn [cgm.run_builder]; unfold cgm._build_model_t2m, cgm._build_model_ws;
      destruct (cgm.latent_epsilon _); cbn [bind]; try discriminate;
      intros H; injection H as <-; reflexivity. }
  rewrite <- Ed in H1, H2, Hd. rewrite <- En in He, He', Hs, Hs'.
  rewrite <- El in He, He', Hcol.
  destruct Hcall as [[_ ->]|[_ ->]].
  - apply (forward_t2m_column _ _ _ _ _ _ _ B F G); assumption.
  - apply (forward_ws_column _ _ _ _ _ _ _ B F G); assumption.
Qed.

Lemma call_shape (dim_out dim_in_mean dim_in_std dim_in_features dim_latent
                  n_samples_train : nat) (model_type latent_dist : string)
      (latent_dist_params : option (R * R)) (o : cgm.obj)
      (weights : list layer_weights)
      (input_mean input_sd input_all eps : Tensor) (B F G : nat) :
  cgm.__init__ dim_out dim_in_mean dim_in_std dim_in_features dim_latent
               n_samples_train model_type latent_dist latent_dist_params
  = Ok o ->
  shape input_mean = [B; dim_out; F] -> shape input_all = [B; dim_out; G] ->
  shape (call (cgm.model o) weights input_mean input_sd input_all eps)
  = [B; dim_out; n_samples_train].
Proof.
  intros Hinit H1 H2.
  destruct (init_ok_inv _ _ _ _ _ _ _ _ _ _ Hinit) as [Ed [En [_ Hcall]]].
  rewrite <- Ed in H1, H2. rewrite <- Ed, <- En.
  destruct Hcall as [[_ ->]|[_ ->]].
  - apply (forward_t2m_shape _ _ _ _ _ _ B F G H1 H2).
  - apply (forward_ws_shape _ _ _ _ _ _ B F G H1 H2).
Qed.

Lemma rsum_zero (n : nat) (f : nat -> R) :
  (forall i, (i < n)%nat -> f i = 0) -> rsum n f = 0.
Proof.
  intros H. rewrite (rsum_ext n f (fun _ => 0)) by exact H.
  rewrite rsum_const. lra.
Qed.

Lemma elu_0 : activations.elu 0 = 0.
Proof.
  unfold activations.elu. destruct (Rlt_dec 0 0) as [H|_]; [lra|].
  rewrite exp_0. lra.
Qed.

Lemma Dense_zero_weights (units : nat) (act : R -> R) (x : Tensor)
      (ix : list nat) :
  at_ (layers.Dense units act cgm.zero_weights x) ix = act 0.
Proof.
  unfold layers.Dense, cgm.zero_weights. cbn -[rsum]. f_equal.
  rewrite rsum_zero; [lra|]. intros i _. lra.
Qed.

Lemma mixing_zero_weights (self : cgm.attrs) (input_all z : Tensor)
      (ix : list nat) :
  at_ (cgm.mixing self cgm.zero_weights cgm.zero_weights cgm.zero_weights
                  input_all z) ix = 0.
Proof.
  unfold cgm.mixing, layers.Permute, tf.transpose. cbn [at_].
  rewrite Dense_zero_weights. reflexivity.
Qed.

Lemma forward_t2m_constant (self : cgm.attrs) (c : R)
      (input_mean input_sd input_all eps : Tensor) (B F G b d s : nat) :
  shape input_mean = [B; cgm.dim_out self; F] ->
  shape input_all = [B; cgm.dim_out self; G] ->
  (b < B)%nat -> (d < cgm.dim_out self)%nat -> (s < cgm._n_samples self)%nat ->
  at_ (cgm.forward_t2m self [(zeros [], mkTensor [] (fun _ => c))]
                       input_mean input_sd input_all eps) [b; d; s] = c.
Proof.
  intros H1 H2 Hb Hd Hs. unfold cgm.forward_t2m.
  unfold layers.Add, tf.add, tf.map2. cbn [at_].
  change (cgm.layer [(zeros [], mkTensor [] (fun _ => c))] 3)
    with cgm.zero_weights.
  change (cgm.layer [(zeros [], mkTensor [] (fun _ => c))] 4)
    with cgm.zero_weights.
  change (cgm.layer [(zeros [], mkTensor [] (fun _ => c))] 5)
    with cgm.zero_weights.
  rewrite mixing_zero_weights.
  match goal with
  | |- context [bindex (shape (repeat_elements ?x ?n))] =>
      assert (Hm : shape (repeat_elements x n)
                   = [B; cgm.dim_out self; cgm._n_samples self])
        by (layer_simpl; rewrite H1; layer_simpl; rewrite Nat.mul_1_l;
            reflexivity)
  end.
  rewrite Hm, bindex_in_range3 by assumption.
  unfold repeat_elements, layers.LocallyConnected1D, activations.linear.
  cbn -[rsum Nat.div]. rewrite rsum_zero; [lra|]. intros i _. lra.
Qed.

(** X8.  For either variant, the model built by the constructor maps
    mean features of shape (batch, dim_out, .) and auxiliary features of
    shape (batch, dim_out, .) to a tensor of shape
    (batch, dim_out, n_samples_train). *)
Theorem model_output_shape
        (dim_out dim_in_mean dim_in_std dim_in_features dim_latent
         n_samples_train : nat) (model_type latent_dist : string)
        (latent_dist_params : option (R * R)) (o : cgm.obj)
        (weights : list layer_weights)
        (input_mean input_sd input_all eps : Tensor) (B F G : nat) :
  cgm.__init__ dim_out dim_in_mean dim_in_std dim_in_features dim_latent
               n_samples_train model_type latent_dist latent_dist_params
  = Ok o ->
  shape input_mean = [B; dim_out; F] -> shape input_all = [B; dim_out; G] ->
  shape (call (cgm.model o) weights input_mean input_sd input_all eps)
  = [B; dim_out; n_samples_train].
Proof. apply call_shape. Qed.

Lemma model_output_shape_witness :
  exists o,
    cgm.__init__ 3 2 2 7 17 5 "t2m" "uniform" None = Ok o
    /\ shape (zeros [4; 3; 2]%nat) = [4; 3; 2]%nat
    /\ shape (zeros [4; 3; 7]%nat) = [4; 3; 7]%nat
    /\ shape (call (cgm.model o) [] (zeros [4; 3; 2]%nat) (zeros [4; 3; 2]%nat)
                   (zeros [4; 3; 7]%nat) (zeros [4; 17; 5]%nat))
       = [4; 3; 5]%nat.
Proof.
  eexists. split; [reflexivity|]. split; [reflexivity|]. split; [reflexivity|].
  pose proof (fun o H =>
    model_output_shape 3 2 2 7 17 5 "t2m" "uniform" None o []
      (zeros [4; 3; 2]%nat) (zeros [4; 3; 2]%nat) (zeros [4; 3; 7]%nat)
      (zeros [4; 17; 5]%nat) 4 2 7 H eq_refl eq_refl) as P.
  apply P. reflexivity.
Defined.

(** X9.  For either variant, sample [s] of the output reads the latent draw
    only in its column [s]: two draws whose columns [s] and [s'] coincide
    for an example give that example the same output in samples [s] and
    [s'].  The latent draw is the only source of spread between the samples
    of an example. *)
Theorem model_sample_reads_own_latent_column
        (dim_out dim_in_mean dim_in_std dim_in_features dim_latent
         n_samples_train : nat) (model_type latent_dist : string)
        (latent_dist_params : option (R * R)) (o : cgm.obj)
        (weights : list layer_weights)
        (input_mean input_sd input_all eps eps' : Tensor)
        (B F G b d s s' : nat) :
  cgm.__init__ dim_out dim_in_mean dim_in_std dim_in_features dim_latent
               n_samples_train model_type latent_dist latent_dist_params
  = Ok o ->
  shape input_mean = [B; dim_out; F] -> shape input_all = [B; dim_out; G] ->
  shape eps = [B; dim_latent; n_samples_train] ->
  shape eps' = [B; dim_latent; n_samples_train] ->
  (b < B)%nat -> (d < dim_out)%nat ->
  (s < n_samples_train)%nat -> (s' < n_samples_train)%nat ->
  (forall k, (k < dim_latent)%nat -> at_ eps [b; k; s] = at_ eps' [b; k; s']) ->
  at_ (call (cgm.model o) weights input_mean input_sd input_all eps) [b; d; s]
  = at_ (call (cgm.model o) weights input_mean input_sd input_all eps')
        [b; d; s'].
Proof. apply call_column. Qed.

Lemma model_sample_reads_own_latent_column_witness :
  exists o,
    cgm.__init__ 3 2 2 7 17 5 "ws" "normal" None = Ok o
    /\ at_ (call (cgm.model o) [] (zeros [4; 3; 2]%nat) (zeros [4; 3; 2]%nat)
                 (zeros [4; 3; 7]%nat) (zeros [4; 17; 5]%nat)) [0; 0; 0]%nat
       = at_ (call (cgm.model o) [] (zeros [4; 3; 2]%nat) (zeros [4; 3; 2]%nat)
                   (zeros [4; 3; 7]%nat) (zeros [4; 17; 5]%nat)) [0; 0; 1]%nat.
Proof.
  eexists. split; [reflexivity|].
  pose proof (fun o H =>
    model_sample_reads_own_latent_column 3 2 2 7 17 5 "ws" "normal" None o []
      (zeros [4; 3; 2]%nat) (zeros [4; 3; 2]%nat) (zeros [4; 3; 7]%nat)
      (zeros [4; 17; 5]%nat) (zeros [4; 17; 5]%nat) 4 2 7 0 0 0 1
      H eq_refl eq_refl eq_refl eq_refl) as P.
  apply P; [reflexivity | lia | lia | lia | lia | reflexivity].
Defined.



(** X11.  The "t2m" output is not constrained in sign: for every real [c]
    there is one set of layer parameters (the bias of the mean layer at
    [c], everything else zero) for which every output entry is [c], for
    every input and latent draw; so negative outputs occur, unlike for
    "ws". *)
Theorem t2m_output_unconstrained
        (dim_out dim_in_mean dim_in_std dim_in_features dim_latent
         n_samples_train : nat) (c : R) :
  exists weights,
    forall (latent_dist : string) (latent_dist_params : option (R * R))
           (o : cgm.obj) (input_mean input_sd input_all eps : Tensor)
           (B F G b d s : nat),
      cgm.__init__ dim_out dim_in_mean dim_in_std dim_in_features dim_latent
                   n_samples_train "t2m" latent_dist latent_dist_params
      = Ok o ->
      shape input_mean = [B; dim_out; F] ->
      shape input_all = [B; dim_out; G] ->
      (b < B)%nat -> (d < dim_out)%nat -> (s < n_samples_train)%nat ->
      at_ (call (cgm.model o) weights input_mean input_sd input_all eps)
          [b; d; s] = c.
Proof.
  exists [(zeros [], mkTensor [] (fun _ => c))].
  intros latent_dist latent_dist_params o input_mean input_sd input_all eps
         B F G b d s Hinit H1 H2 Hb Hd Hs.
  destruct (init_ok_inv _ _ _ _ _ _ _ _ _ _ Hinit)
    as [Ed [En [_ [[_ E]|[E _]]]]]; [|discriminate E].
  rewrite E. rewrite <- Ed in H1, H2, Hd. rewrite <- En in Hs.
  apply (forward_t2m_constant _ c _ _ _ _ B F G); assumption.
Qed.

Lemma t2m_output_unconstrained_witness :
  exists weights o,
    cgm.__init__ 3 2 2 7 17 5 "t2m" "normal" None = Ok o
    /\ at_ (call (cgm.model o) weights (zeros [4; 3; 2]%nat)
                 (zeros [4; 3; 2]%nat) (zeros [4; 3; 7]%nat)
                 (zeros [4; 17; 5]%nat)) [0; 0; 0]%nat = -1
    /\ at_ (call (cgm.model o) weights
                 (constant3 [[[1; 2]; [3; 4]; [5; 6]]])
                 (constant3 [[[3; 4]; [5; 6]; [7; 8]]])
                 (constant3 [[[5]; [6]; [7]]])
                 (constant3 [[[9; 8; 7; 6; 5]]])) [0; 2; 4]%nat = -1.
Proof.
  destruct (t2m_output_unconstrained 3 2 2 7 17 5 (-1)) as [weights Hw].
  exists weights. eexists. split; [reflexivity|]. split.
  - apply (Hw "normal"%string None _ (zeros [4; 3; 2]%nat) (zeros [4; 3; 2]%nat)
              (zeros [4; 3; 7]%nat) (zeros [4; 17; 5]%nat)
              4%nat 2%nat 7%nat 0%nat 0%nat 0%nat);
      [reflexivity | reflexivity | reflexivity | lia | lia | lia].
  - apply (Hw "normal"%string None _
              (constant3 [[[1; 2]; [3; 4]; [5; 6]]])
              (constant3 [[[3; 4]; [5; 6]; [7; 8]]])
              (constant3 [[[5]; [6]; [7]]])
              (constant3 [[[9; 8; 7; 6; 5]]])
              1%nat 2%nat 1%nat 0%nat 2%nat 4%nat);
      [reflexivity | reflexivity | reflexivity | lia | lia | lia].
Defined.

(** ** Further properties of prediction *)

Lemma nth_map_seq {A : Type} (f : nat -> A) (k i : nat) (d : A) :
  (i < k)%nat -> nth i (List.map f (seq 0 k)) d = f i.
Proof.
  intros H. rewrite (nth_indep _ d (f O)) by (rewrite length_map, length_seq; exact H).
  rewrite (map_nth f (seq 0 k) O i), seq_nth by exact H. reflexivity.
Qed.

Lemma predict_passes_ok (rng : Type)
      (draw : latent_draw -> list nat -> rng -> Tensor * rng)
      (o : cgm.obj) (weights : list layer_weights)
      (x_test : Tensor * Tensor * Tensor) (n_samples : nat) (g : rng) :
  (1 <= cgm._n_samples (cgm.self o))%nat ->
  let m := cgm._n_samples (cgm.self o) in
  let k := ((n_samples + m - 1) / m)%nat in
  let step := pass_state rng draw (cgm.model o) weights x_test in
  let output := pass_output rng draw (cgm.model o) weights x_test in
  predict_passes rng draw o weights x_test n_samples g
  = Ok (List.map (fun i => output (Nat.iter i step g)) (seq 0 k),
        Nat.iter k step g).
Proof.
  intros Hm m k step output. unfold predict_passes.
  rewrite (ceil_div_nat n_samples _ Hm). cbn [bind].
  rewrite predict_loop_unfold. reflexivity.
Qed.

Lemma predict_ok (rng : Type)
      (draw : latent_draw -> list nat -> rng -> Tensor * rng)
      (dim_out dim_in_mean dim_in_std dim_in_features dim_latent
       n_samples_train : nat) (model_type latent_dist : string)
      (latent_dist_params : option (R * R)) (o : cgm.obj)
      (weights : list layer_weights) (input_mean input_sd input_all : Tensor)
      (B F G n_samples : nat) (g : rng) :
  cgm.__init__ dim_out dim_in_mean dim_in_std dim_in_features dim_latent
               n_samples_train model_type latent_dist latent_dist_params
  = Ok o ->
  shape input_mean = [B; dim_out; F] -> shape input_all = [B; dim_out; G] ->
  (1 <= n_samples)%nat -> (1 <= n_samples_train)%nat ->
  let x_test := (input_mean, input_sd, input_all) in
  let step := pass_state rng draw (cgm.model o) weights x_test in
  let output := pass_output rng draw (cgm.model o) weights x_test in
  let k := ((n_samples + n_samples_train - 1) / n_samples_train)%nat in
  exists out,
    predict rng draw o weights x_test n_samples g = Ok (out, Nat.iter k step g)
    /\ shape out = [B; dim_out; n_samples]
    /\ forall b d j, (j < n_samples)%nat ->
         at_ out [b; d; j]
         = at_ (output (Nat.iter (j / n_samples_train) step g))
               [b; d; (j mod n_samples_train)%nat].
Proof.
  intros Hinit H1 H2 Hn Hm x_test step output k.
  destruct (init_ok_inv _ _ _ _ _ _ _ _ _ _ Hinit) as [_ [En _]].
  assert (Hm' : (1 <= cgm._n_samples (cgm.self o))%nat) by (rewrite En; exact Hm).
  pose proof (predict_passes_ok rng draw o weights x_test n_samples g Hm') as Hp.
  cbv zeta in Hp. rewrite En in Hp. fold step output k in Hp.
  set (S := List.map (fun i => output (Nat.iter i step g)) (seq 0 k)) in *.
  assert (Hlen : List.length S = k)
    by (unfold S; rewrite length_map, length_seq; reflexivity).
  assert (Hshape : Forall (fun y => shape y = [B; dim_out; n_samples_train]) S).
  { unfold S. apply Forall_forall. intros y Hy.
    apply in_map_iff in Hy as [i [<- _]]. unfold output, x_test.
    eapply pass_output_shape; eassumption. }
  assert (Hext : Forall (fun t => nth 2 (shape t) O = n_samples_train) S).
  { eapply Forall_impl; [|exact Hshape]. intros y Hy. rewrite Hy. reflexivity. }
  assert (Hcover : (n_samples <= k * n_samples_train)%nat)
    by (apply ceil_covers, Hm).
  assert (Hkpos : (1 <= k)%nat) by (apply ceil_positive; assumption).
  assert (Hnth : forall i, (i < k)%nat ->
            nth i S (mkTensor [] (fun _ => 0)) = output (Nat.iter i step g))
    by (intros i Hi; unfold S;
        apply (nth_map_seq (fun i => output (Nat.iter i step g))), Hi).
  unfold predict. rewrite Hp. cbn [bind fst snd].
  destruct S as [|a rest] eqn:ES; [cbn in Hlen; lia|].
  cbn [np.concatenate bind]. eexists. split; [reflexivity|]. split.
  - cbn [np.slice_axis2 shape].
    rewrite (concatenate_extent (a :: rest) n_samples_train Hext), Hlen.
    inversion Hshape as [|? ? Ha _]; subst. rewrite Ha.
    cbn. rewrite Nat.min_l by exact Hcover. reflexivity.
  - intros b d j Hj. cbn [np.slice_axis2 at_].
    rewrite (concatenate_at_block (a :: rest) n_samples_train b d j Hm Hext)
      by (rewrite Hlen; lia).
    rewrite Hnth; [reflexivity|].
    apply Nat.Div0.div_lt_upper_bound. lia.
Qed.

(** X12.  [predict] with [n_samples = 0] makes no forward pass and raises
    the [ValueError] of [np.concatenate] on an empty list. *)
Theorem predict_zero_samples_raises (rng : Type)
        (draw : latent_draw -> list nat -> rng -> Tensor * rng)
        (o : cgm.obj) (weights : list layer_weights)
        (x_test : Tensor * Tensor * Tensor) (g : rng) :
  (1 <= cgm._n_samples (cgm.self o))%nat ->
  predict rng draw o weights x_test 0 g
  = Raise (ValueError "need at least one array to concatenate").
Proof.
  intros Hm. unfold predict.
  rewrite (predict_passes_ok rng draw o weights x_test 0 g Hm).
  rewrite Nat.add_0_l, Nat.div_small by lia. reflexivity.
Qed.

Lemma predict_zero_samples_raises_witness :
  exists o,
    cgm.__init__ 3 2 2 7 17 5 "ws" "normal" None = Ok o
    /\ (1 <= cgm._n_samples (cgm.self o))%nat
    /\ predict unit (fun _ s g => (zeros s, g)) o []
               (zeros [4; 3; 2]%nat, zeros [4; 3; 2]%nat, zeros [4; 3; 7]%nat)
               0 tt
       = Raise (ValueError "need at least one array to concatenate").
Proof.
  eexists. split; [reflexivity|].
  split; [cbn; lia|].
  apply predict_zero_samples_raises. cbn. lia.
Defined.

(** X13.  [predict] makes no pass it does not need: the passes yield at
    least [n_samples] samples and fewer than [n_samples + n_samples_train],
    so fewer than [n_samples_train] samples are discarded; a request of at
    most [n_samples_train] samples takes one pass, and a multiple
    [q * n_samples_train] takes [q] passes and discards nothing. *)
Theorem predict_passes_minimal (rng : Type)
        (draw : latent_draw -> list nat -> rng -> Tensor * rng)
        (o : cgm.obj) (weights : list layer_weights)
        (x_test : Tensor * Tensor * Tensor) (n_samples : nat) (g : rng) :
  (1 <= cgm._n_samples (cgm.self o))%nat ->
  let m := cgm._n_samples (cgm.self o) in
  exists S g',
    predict_passes rng draw o weights x_test n_samples g = Ok (S, g')
    /\ (n_samples <= List.length S * m < n_samples + m)%nat
    /\ ((1 <= n_samples <= m)%nat -> List.length S = 1%nat)
    /\ (forall q, n_samples = (q * m)%nat -> List.length S = q).
Proof.
  intros Hm m.
  pose proof (predict_passes_ok rng draw o weights x_test n_samples g Hm) as Hp.
  cbv zeta in Hp. fold m in Hp.
  eexists. eexists. split; [exact Hp|].
  rewrite length_map, length_seq.
  assert (Hm0 : (1 <= m)%nat) by exact Hm.
  pose proof (Nat.div_mod_eq (n_samples + m - 1) m) as E.
  pose proof (Nat.mod_upper_bound (n_samples + m - 1) m ltac:(lia)) as Hb.
  set (k := ((n_samples + m - 1) / m)%nat) in *.
  assert (R1 : (n_samples <= k * m < n_samples + m)%nat) by nia.
  split; [exact R1|]. split.
  - intros Hle. nia.
  - intros q ->. nia.
Qed.

Lemma predict_passes_minimal_witness :
  exists o,
    cgm.__init__ 3 2 2 7 17 5 "ws" "normal" None = Ok o
    /\ (1 <= cgm._n_samples (cgm.self o))%nat
    /\ exists S g',
         predict_passes unit (fun _ s g => (zeros s, g)) o []
           (zeros [4; 3; 2]%nat, zeros [4; 3; 2]%nat, zeros [4; 3; 7]%nat)
           7 tt = Ok (S, g')
         /\ (7 <= List.length S * 5 < 7 + 5)%nat.
Proof.
  eexists. split; [reflexivity|].
  split; [cbn; lia|].
  edestruct (predict_passes_minimal unit (fun _ s g => (zeros s, g)))
    as (S & g' & Hp & Hr & _); [|exists S, g'; split; [exact Hp | exact Hr]].
  cbn. lia.
Defined.

Lemma pass_output_ws_pos (rng : Type)
      (draw : latent_draw -> list nat -> rng -> Tensor * rng)
      (o : cgm.obj) (weights : list layer_weights)
      (x_test : Tensor * Tensor * Tensor) (g : rng) (ix : list nat) :
  call (cgm.model o) = cgm.forward_ws (cgm.self o) ->
  0 < at_ (pass_output rng draw (cgm.model o) weights x_test g) ix.
Proof.
  intros E. unfold pass_output, model_predict.
  destruct x_test as [[input_mean input_sd] input_all].
  destruct (draw _ _ g) as [eps g']. cbn [fst]. rewrite E.
  apply forward_ws_pos.
Qed.

(** X14.  No sample that [predict] returns for a "ws" model is negative:
    the truncated concatenation holds only softplus outputs. *)
Theorem predict_ws_nonnegative (rng : Type)
        (draw : latent_draw -> list nat -> rng -> Tensor * rng)
        (dim_out dim_in_mean dim_in_std dim_in_features dim_latent
         n_samples_train : nat) (latent_dist : string)
        (latent_dist_params : option (R * R)) (o : cgm.obj)
        (weights : list layer_weights) (input_mean input_sd input_all : Tensor)
        (B F G n_samples : nat) (g : rng) :
  cgm.__init__ dim_out dim_in_mean dim_in_std dim_in_features dim_latent
               n_samples_train "ws" latent_dist latent_dist_params
  = Ok o ->
  shape input_mean = [B; dim_out; F] -> shape input_all = [B; dim_out; G] ->
  (1 <= n_samples)%nat -> (1 <= n_samples_train)%nat ->
  exists out g',
    predict rng draw o weights (input_mean, input_sd, input_all) n_samples g
    = Ok (out, g')
    /\ shape out = [B; dim_out; n_samples]
    /\ forall b d j, (j < n_samples)%nat -> 0 <= at_ out [b; d; j].
Proof.
  intros Hinit H1 H2 Hn Hm.
  destruct (predict_ok rng draw _ _ _ _ _ _ _ _ _ o weights input_mean input_sd
              input_all B F G n_samples g Hinit H1 H2 Hn Hm)
    as (out & Hp & Hs & Hat).
  destruct (init_ok_inv _ _ _ _ _ _ _ _ _ _ Hinit)
    as [_ [_ [_ [[E _]|[_ E]]]]]; [discriminate E|].
  exists out. eexists. split; [exact Hp|]. split; [exact Hs|].
  intros b d j Hj. rewrite (Hat b d j Hj). left.
  apply pass_output_ws_pos, E.
Qed.

Lemma predict_ws_nonnegative_witness :
  exists o,
    cgm.__init__ 3 2 2 7 17 5 "ws" "normal" None = Ok o
    /\ exists out g',
         predict unit (fun _ s g => (zeros s, g)) o []
                 (zeros [4; 3; 2]%nat, zeros [4; 3; 2]%nat, zeros [4; 3; 7]%nat)
                 7 tt
         = Ok (out, g')
         /\ 0 <= at_ out [0; 0; 6]%nat.
Proof.
  eexists. split; [reflexivity|].
  pose proof (fun o H =>
    predict_ws_nonnegative unit (fun _ s g => (zeros s, g)) 3 2 2 7 17 5
      "normal" None o [] (zeros [4; 3; 2]%nat) (zeros [4; 3; 2]%nat)
      (zeros [4; 3; 7]%nat) 4 2 7 7 tt H eq_refl eq_refl) as P.
  edestruct P as (out & g' & Hp & _ & Hpos); [reflexivity | lia | lia |].
  exists out, g'. split; [exact Hp|]. apply Hpos. lia.
Defined.

(** X15.  From one generator state, a shorter prediction is a prefix of a
    longer one: for [n <= n'] the [n] samples of [predict x n] are the first
    [n] samples of [predict x n']. *)
Theorem predict_prefix_consistent (rng : Type)
        (draw : latent_draw -> list nat -> rng -> Tensor * rng)
        (dim_out dim_in_mean dim_in_std dim_in_features dim_latent
         n_samples_train : nat) (model_type latent_dist : string)
        (latent_dist_params : option (R * R)) (o : cgm.obj)
        (weights : list layer_weights) (input_mean input_sd input_all : Tensor)
        (B F G n n' : nat) (g : rng) :
  cgm.__init__ dim_out dim_in_mean dim_in_std dim_in_features dim_latent
               n_samples_train model_type latent_dist latent_dist_params
  = Ok o ->
  shape input_mean = [B; dim_out; F] -> shape input_all = [B; dim_out; G] ->
  (1 <= n)%nat -> (n <= n')%nat -> (1 <= n_samples_train)%nat ->
  exists out out' g1 g2,
    predict rng draw o weights (input_mean, input_sd, input_all) n g
    = Ok (out, g1)
    /\ predict rng draw o weights (input_mean, input_sd, input_all) n' g
       = Ok (out', g2)
    /\ forall b d j, (j < n)%nat -> at_ out [b; d; j] = at_ out' [b; d; j].
Proof.
  intros Hinit H1 H2 Hn Hle Hm.
  destruct (predict_ok rng draw _ _ _ _ _ _ _ _ _ o weights input_mean input_sd
              input_all B F G n g Hinit H1 H2 Hn Hm)
    as (out & Hp & _ & Hat).
  destruct (predict_ok rng draw _ _ _ _ _ _ _ _ _ o weights input_mean input_sd
              input_all B F G n' g Hinit H1 H2 ltac:(lia) Hm)
    as (out' & Hp' & _ & Hat').
  exists out, out'. eexists. eexists.
  split; [exact Hp|]. split; [exact Hp'|].
  intros b d j Hj. rewrite (Hat b d j Hj), (Hat' b d j ltac:(lia)). reflexivity.
Qed.

Lemma predict_prefix_consistent_witness :
  exists o,
    cgm.__init__ 3 2 2 7 17 5 "ws" "normal" None = Ok o
    /\ exists out out' g1 g2,
         predict unit (fun _ s g => (zeros s, g)) o []
                 (zeros [4; 3; 2]%nat, zeros [4; 3; 2]%nat, zeros [4; 3; 7]%nat)
                 3 tt
         = Ok (out, g1)
         /\ predict unit (fun _ s g => (zeros s, g)) o []
                    (zeros [4; 3; 2]%nat, zeros [4; 3; 2]%nat,
                     zeros [4; 3; 7]%nat) 7 tt
            = Ok (out', g2)
         /\ at_ out [0; 0; 2]%nat = at_ out' [0; 0; 2]%nat.
Proof.
  eexists. split; [reflexivity|].
  pose proof (fun o H =>
    predict_prefix_consistent unit (fun _ s g => (zeros s, g)) 3 2 2 7 17 5
      "ws" "normal" None o [] (zeros [4; 3; 2]%nat) (zeros [4; 3; 2]%nat)
      (zeros [4; 3; 7]%nat) 4 2 7 3 7 tt H eq_refl eq_refl) as P.
  edestruct P as (out & out' & g1 & g2 & Hp & Hp' & Heq);
    [reflexivity | lia | lia | lia |].
  exists out, out', g1, g2. split; [exact Hp|]. split; [exact Hp'|].
  apply Heq. lia.
Defined.
